(** * Summary-write pipeline of [src/sharedMethods/summaryHandler.js]

    A shallow embedding of the module's five helper functions and of
    [handleSummary].  Everything the module imports (the Sheets client, the
    tab helpers, the payload builder, [console.error]) is outside the file:
    the imported functions are fields of a record of collaborators acting on
    a store, and every call the module makes is recorded in a trace. *)

From Stdlib Require Import ZArith NArith String List Lia Permutation.
Import ListNotations.

Local Open Scope string_scope.
Local Open Scope list_scope.

(* ===================================================================== *)
(** ** JavaScript values the module computes with *)
(* ===================================================================== *)

(** The numbers that reach [Math.max]: integer indices, the [NaN] that
    [ToNumber(undefined)] yields, and the [-Infinity] that [Math.max]
    starts from. *)
Inductive jsnum : Type :=
| NaN
| NegInfinity
| Num (z : Z).

(** Values that can be thrown (or that a promise can reject with). *)
Inductive thrown : Type :=
| TypeError (reading : string)   (* property read on [undefined] *)
| RangeError                     (* a call with more arguments than the engine takes *)
| Error_ (message : string)      (* [new Error(message)] built by this module *)
| Foreign (reason : string).     (* whatever an imported function threw *)

Inductive outcome (A : Type) : Type :=
| Returned (a : A)
| Threw (e : thrown).
Arguments Returned {A} a.
Arguments Threw {A} e.

Definition thrown_of {A} (r : outcome A) : option thrown :=
  match r with
  | Returned _ => None
  | Threw e => Some e
  end.

(** [ToNumber] on a property that holds an integer or is missing. *)
Definition ToNumber (v : option Z) : jsnum :=
  match v with
  | Some z => Num z
  | None => NaN
  end.

(** One iteration of the loop of [Math.max]: [NaN] is absorbing, otherwise
    the larger value is kept. *)
Definition max_step (highest x : jsnum) : jsnum :=
  match highest, x with
  | NaN, _ => NaN
  | _, NaN => NaN
  | NegInfinity, v => v
  | v, NegInfinity => v
  | Num a, Num b => Num (Z.max a b)
  end.

(** [Math.max(...args)]; with no argument the result is [-Infinity]. *)
Definition Math_max (args : list jsnum) : jsnum :=
  fold_left max_step args NegInfinity.

(* ===================================================================== *)
(** ** Payloads *)
(* ===================================================================== *)

(** A Sheets [GridRange]; every index is optional in the API. *)
Record GridRange : Type := {
  sheetId : option Z;
  startRowIndex : option Z;
  endRowIndex : option Z;
  startColumnIndex : option Z;
  endColumnIndex : option Z
}.

Record CopyPasteRequest : Type := {
  source : option GridRange;
  destination : option GridRange;
  pasteType : string
}.

(** A [batchUpdate] request object: exactly one request kind is set. *)
Inductive Request : Type :=
| ReqCopyPaste (copyPaste : CopyPasteRequest)
| ReqMergeCells (range : GridRange) (mergeType : string)
| ReqOther (kind : string) (content : string).

Record ValueRange : Type := {
  vr_range : string;
  vr_values : list (list string)
}.

(** The object returned by [constructPayloadForCopyPaste]. *)
Record WritePayload : Type := {
  headerPayload : list ValueRange;
  bodyPayload : list Request;
  summaryGridStyles : Request;
  summaryHeaderStylePayload : Request
}.

(** [item.copyPaste.destination.endRowIndex], the callback of [payload.map]
    at line 73: reading [destination] of a missing [copyPaste], or
    [endRowIndex] of a missing [destination], throws. *)
Definition item_endRowIndex (item : Request) : outcome (option Z) :=
  match item with
  | ReqCopyPaste cp =>
      match destination cp with
      | Some d => Returned (endRowIndex d)
      | None => Threw (TypeError "endRowIndex")
      end
  | _ => Threw (TypeError "destination")
  end.

(** [Array.prototype.map] with a callback that may throw: elements are
    visited in order and the first throw ends the call. *)
Fixpoint array_map {A B} (f : A -> outcome B) (l : list A) : outcome (list B) :=
  match l with
  | [] => Returned []
  | x :: l' =>
      match f x with
      | Threw e => Threw e
      | Returned y =>
          match array_map f l' with
          | Threw e => Threw e
          | Returned ys => Returned (y :: ys)
          end
      end
  end.

(** Lines 69-70. *)
Definition numberOfColumnsNeeded (lastMonthSheetTitles headerIndicators : list string) : Z :=
  (Z.of_nat (length lastMonthSheetTitles) * Z.of_nat (length headerIndicators))%Z.

(** [Math.max(...args)] as a call: the spread hands every element of the
    array to the call as one argument, and an engine takes only so many
    arguments ([max_arguments], of the order of 10^5 in V8); with more, the
    call throws a [RangeError] before [Math.max] runs. *)
Definition spread_Math_max (max_arguments : N) (args : list jsnum) : outcome jsnum :=
  if (N.of_nat (length args) <=? max_arguments)%N
  then Returned (Math_max args)
  else Threw RangeError.

(** Lines 72-74. *)
Definition numberOfRowsNeeded (max_arguments : N) (payload : list Request) :
  outcome jsnum :=
  match array_map item_endRowIndex payload with
  | Threw e => Threw e
  | Returned rows => spread_Math_max max_arguments (map ToNumber rows)
  end.

(* ===================================================================== *)
(** ** Store, trace and the monad of the module *)
(* ===================================================================== *)

(** References to objects of the JavaScript heap.  Objects are never
    deallocated while referenced, so the heap is total on references; what
    can change is the object a reference points to. *)
Definition loc : Type := positive.

(** The functions of the module, for the entry and exit marks of the trace. *)
Inductive fname : Type :=
| FaddColumnsAndRows
| FsendSummaryHeaders
| FsendSummaryBody
| FsendSummaryGrid
| FsummaryHeaderStyling.

(** [resource: {...}] or [requestBody: {...}] in the argument of
    [sheets.spreadsheets.batchUpdate]. *)
Inductive BodyKey : Type := resource | requestBody.

(** An element of a [requests: [...]] array: a request object, or (body
    write) the whole array of copy-paste instructions. *)
Inductive RequestsElem : Type :=
| OneRequest (r : Request)
| RequestArray (rs : list Request).

Section Pipeline.

(** What lies outside the module: the remote spreadsheet and the rest of
    the process ([World]), the credential object, and tab identifiers,
    which the module only passes on. *)
Context {World Auth TabId : Type}.

Record Store : Type := {
  world : World;
  heap : loc -> WritePayload
}.

Record BatchUpdateParams : Type := {
  bu_auth : Auth;
  bu_spreadsheetId : string;
  bu_key : BodyKey;
  bu_requests : list RequestsElem
}.

Record ValuesBatchUpdateParams : Type := {
  vbu_auth : Auth;
  vbu_spreadsheetId : string;
  vbu_valueInputOption : string;
  vbu_data : list ValueRange
}.

(** Calls that leave the module, with their arguments. *)
Inductive call : Type :=
| CgetExistingTabTitlesInRange
| CgetLastMonthTabTitles (existing : list string)
| CcreateSummaryTitle
| CcreateNewTab (title : string)
| CconstructPayloadForCopyPaste (titles : list string) (title : string)
| CgetTabIdFromTitle (title : string)
| CaddColumnsAndRowsToTabId (id : TabId) (columns : Z) (rows : jsnum)
| Cvalues_batchUpdate (p : ValuesBatchUpdateParams)
| CbatchUpdate (p : BatchUpdateParams) (callback : bool).

(** Arguments of [console.error]. *)
Inductive logarg : Type :=
| LStr (s : string)
| LErr (e : thrown)
| LConcat (s : string) (e : thrown).   (* ['...' + err] *)

Inductive event : Type :=
| Enter (f : fname)                       (* a function of the module is invoked *)
| Exit (f : fname) (r : option thrown)    (* it returned ([None]) or threw *)
| Ext (c : call) (r : option thrown)      (* an imported function was called and settled *)
| ConsoleError (args : list logarg).

Definition M (A : Type) : Type := Store -> outcome A * Store * list event.

Definition ret {A} (a : A) : M A := fun s => (Returned a, s, []).

Definition throw {A} (e : thrown) : M A := fun s => (Threw e, s, []).

Definition bind {A B} (m : M A) (k : A -> M B) : M B :=
  fun s =>
    match m s with
    | (Returned a, s1, t1) => let '(r, s2, t2) := k a s1 in (r, s2, t1 ++ t2)
    | (Threw e, s1, t1) => (Threw e, s1, t1)
    end.

(** [try { body } catch (error) { handler error }] *)
Definition try_catch {A} (body : M A) (handler : thrown -> M A) : M A :=
  fun s =>
    match body s with
    | (Returned a, s1, t1) => (Returned a, s1, t1)
    | (Threw e, s1, t1) => let '(r, s2, t2) := handler e s1 in (r, s2, t1 ++ t2)
    end.

Definition lift {A} (o : outcome A) : M A := fun s => (o, s, []).

Definition emit (ev : event) : M unit := fun s => (Returned tt, s, [ev]).

(** A call to an imported function: it may change the store, and it
    returns or throws. *)
Definition extern {A} (c : call) (f : Store -> outcome A * Store) : M A :=
  fun s => let '(r, s1) := f s in (r, s1, [Ext c (thrown_of r)]).

(** Entry and exit marks around the body of a function of the module. *)
Definition traced {A} (f : fname) (body : M A) : M A :=
  fun s => let '(r, s1, t) := body s in (r, s1, Enter f :: t ++ [Exit f (thrown_of r)]).

(** Reading a property of the payload object behind a reference. *)
Definition get_field {A} (l : loc) (field : WritePayload -> A) : M A :=
  fun s => (Returned (field (heap s l)), s, []).

Definition console_error (args : list logarg) : M unit := emit (ConsoleError args).

End Pipeline.

Arguments Store : clear implicits.
Arguments BatchUpdateParams : clear implicits.
Arguments ValuesBatchUpdateParams : clear implicits.
Arguments call : clear implicits.
Arguments event : clear implicits.
Arguments M : clear implicits.

Notation "'let*' x ':=' m 'in' k" := (bind m (fun x => k))
  (at level 10, x name, m at level 100, k at level 200, only parsing).

(* ===================================================================== *)
(** ** The imports of the module *)
(* ===================================================================== *)

(** The imported functions, and the one limit of the engine that the
    module can run into.  Each function acts on the store and returns or
    throws; nothing else is known about them.  [batchUpdate_cb] is
    [sheets.spreadsheets.batchUpdate] called with a callback: the call
    itself returns [undefined] or throws, and the client runs the callback
    at some later time, after the caller has gone on. *)
Record Collaborators {World Auth TabId : Type} : Type := {
  max_arguments : N;
  getExistingTabTitlesInRange : Store World -> outcome (list string) * Store World;
  getLastMonthTabTitles : list string -> Store World -> outcome (list string) * Store World;
  createSummaryTitle : Store World -> outcome string * Store World;
  createNewTab : string -> Store World -> outcome unit * Store World;
  constructPayloadForCopyPaste :
    list string -> string -> Store World -> outcome loc * Store World;
  getTabIdFromTitle : string -> Store World -> outcome TabId * Store World;
  addColumnsAndRowsToTabId :
    TabId -> Z -> jsnum -> Store World -> outcome unit * Store World;
  values_batchUpdate :
    ValuesBatchUpdateParams Auth -> Store World -> outcome unit * Store World;
  batchUpdate :
    BatchUpdateParams Auth -> Store World -> outcome unit * Store World;
  batchUpdate_cb :
    BatchUpdateParams Auth -> Store World -> outcome unit * Store World
}.
Arguments Collaborators : clear implicits.

(* ===================================================================== *)
(** ** The functions of the module *)
(* ===================================================================== *)

Section SummaryHandler.

Context {World Auth TabId : Type}.

(** [auth], [spreadsheetId] (from [../google/auth.js]) and
    [HEADER_INDICATORS] (from [constants.js]). *)
Variable auth : Auth.
Variable spreadsheetId : string.
Variable HEADER_INDICATORS : list string.

Variable C : Collaborators World Auth TabId.

Local Abbreviation M := (M World Auth TabId).

(** Lines 32-44.  The function declares one parameter; [handleSummary]
    calls it with two, and the second one is bound to nothing. *)
Definition sendSummaryBody (payload : list Request) (_ : string) : M unit :=
  traced FsendSummaryBody
    (try_catch
       (let params :=
          {| bu_auth := auth;
             bu_spreadsheetId := spreadsheetId;
             bu_key := resource;
             bu_requests := [RequestArray payload] |} in
        extern (CbatchUpdate params false) (batchUpdate C params))
       (fun error =>
          console_error
            [LStr ("Error writing to project: " ++ spreadsheetId); LErr error])).

(** Lines 61-86. *)
Definition addColumnsAndRows
    (summaryPageTitle : string)
    (lastMonthSheetTitles headerIndicators : list string)
    (payload : list Request)
    (destinationTabTitle : string) : M unit :=
  traced FaddColumnsAndRows
    (try_catch
       (let numberOfColumnsNeeded_ :=
          numberOfColumnsNeeded lastMonthSheetTitles headerIndicators in
        let* numberOfRowsNeeded_ :=
          lift (numberOfRowsNeeded (max_arguments C) payload) in
        let* destinationTabId :=
          extern (CgetTabIdFromTitle destinationTabTitle)
                 (getTabIdFromTitle C destinationTabTitle) in
        extern
          (CaddColumnsAndRowsToTabId
             destinationTabId numberOfColumnsNeeded_ numberOfRowsNeeded_)
          (addColumnsAndRowsToTabId C
             destinationTabId numberOfColumnsNeeded_ numberOfRowsNeeded_))
       (fun error =>
          let* _ := console_error [LStr "Error in adding columns and rows:"; LErr error] in
          throw (Error_ "Unable to add columns and rows to the sheet."))).

(** Lines 113-126. *)
Definition sendSummaryHeaders (payload : list ValueRange) : M unit :=
  traced FsendSummaryHeaders
    (try_catch
       (let params :=
          {| vbu_auth := auth;
             vbu_spreadsheetId := spreadsheetId;
             vbu_valueInputOption := "RAW";
             vbu_data := payload |} in
        extern (Cvalues_batchUpdate params) (values_batchUpdate C params))
       (fun error => console_error [LStr "An error occurred:"; LErr error])).

(** Lines 161-166, the callback handed to [batchUpdate] by
    [sendSummaryGrid]: [err] is the error the client reports, if any.  It
    runs when the client calls it, not during [sendSummaryGrid]. *)
Definition sendSummaryGrid_callback (err : option thrown) : M unit :=
  match err with
  | Some e => console_error [LConcat "The API returned an error: " e]
  | None => ret tt
  end.

(** Lines 151-171.  Only a throw of the call itself reaches the [catch];
    what the client reports later goes to [sendSummaryGrid_callback]. *)
Definition sendSummaryGrid (payload : Request) : M unit :=
  traced FsendSummaryGrid
    (try_catch
       (let params :=
          {| bu_auth := auth;
             bu_spreadsheetId := spreadsheetId;
             bu_key := resource;
             bu_requests := [OneRequest payload] |} in
        extern (CbatchUpdate params true) (batchUpdate_cb C params))
       (fun error => console_error [LStr "An error occurred:"; LErr error])).

(** Lines 200-212. *)
Definition summaryHeaderStyling (payload : Request) : M unit :=
  traced FsummaryHeaderStyling
    (try_catch
       (let params :=
          {| bu_auth := auth;
             bu_spreadsheetId := spreadsheetId;
             bu_key := requestBody;
             bu_requests := [OneRequest payload] |} in
        extern (CbatchUpdate params false) (batchUpdate C params))
       (fun error => console_error [LStr "An error occurred:"; LErr error])).

(** Lines 214-237.  [fullSummaryPayload] is a reference; each
    [fullSummaryPayload.x] reads the object it points to at that moment. *)
Definition handleSummary : M unit :=
  let* existingSheetTitles :=
    extern CgetExistingTabTitlesInRange (getExistingTabTitlesInRange C) in
  let* lastMonthSheetTitles :=
    extern (CgetLastMonthTabTitles existingSheetTitles)
           (getLastMonthTabTitles C existingSheetTitles) in
  let* summaryPageTitle := extern CcreateSummaryTitle (createSummaryTitle C) in
  let* _ := extern (CcreateNewTab summaryPageTitle) (createNewTab C summaryPageTitle) in
  let* fullSummaryPayload :=
    extern (CconstructPayloadForCopyPaste lastMonthSheetTitles summaryPageTitle)
           (constructPayloadForCopyPaste C lastMonthSheetTitles summaryPageTitle) in
  let* body0 := get_field fullSummaryPayload bodyPayload in
  let* _ := addColumnsAndRows
         summaryPageTitle lastMonthSheetTitles HEADER_INDICATORS body0
         summaryPageTitle in
  let* header := get_field fullSummaryPayload headerPayload in
  let* _ := sendSummaryHeaders header in
  let* body := get_field fullSummaryPayload bodyPayload in
  let* _ := sendSummaryBody body summaryPageTitle in
  (* await sendSummaryGrid(fullSummaryPayload.summaryGridStyles); *)
  let* style := get_field fullSummaryPayload summaryHeaderStylePayload in
  summaryHeaderStyling style.

(** The two ends of [handleSummary], named for the statements below:
    lines 215-224, which obtain the titles and the payload reference, and
    lines 233-236, the three writes. *)
Definition gather_inputs : M (list string * string * loc) :=
  let* existingSheetTitles :=
    extern CgetExistingTabTitlesInRange (getExistingTabTitlesInRange C) in
  let* lastMonthSheetTitles :=
    extern (CgetLastMonthTabTitles existingSheetTitles)
           (getLastMonthTabTitles C existingSheetTitles) in
  let* summaryPageTitle := extern CcreateSummaryTitle (createSummaryTitle C) in
  let* _ := extern (CcreateNewTab summaryPageTitle) (createNewTab C summaryPageTitle) in
  let* fullSummaryPayload :=
    extern (CconstructPayloadForCopyPaste lastMonthSheetTitles summaryPageTitle)
           (constructPayloadForCopyPaste C lastMonthSheetTitles summaryPageTitle) in
  ret (lastMonthSheetTitles, summaryPageTitle, fullSummaryPayload).

Definition write_phase (summaryPageTitle : string) (fullSummaryPayload : loc) : M unit :=
  let* header := get_field fullSummaryPayload headerPayload in
  let* _ := sendSummaryHeaders header in
  let* body := get_field fullSummaryPayload bodyPayload in
  let* _ := sendSummaryBody body summaryPageTitle in
  let* style := get_field fullSummaryPayload summaryHeaderStylePayload in
  summaryHeaderStyling style.

(** The arguments the three write steps hand to the Sheets client. *)
Definition header_params (payload : list ValueRange) : ValuesBatchUpdateParams Auth :=
  {| vbu_auth := auth;
     vbu_spreadsheetId := spreadsheetId;
     vbu_valueInputOption := "RAW";
     vbu_data := payload |}.

Definition body_params (payload : list Request) : BatchUpdateParams Auth :=
  {| bu_auth := auth;
     bu_spreadsheetId := spreadsheetId;
     bu_key := resource;
     bu_requests := [RequestArray payload] |}.

Definition style_params (payload : Request) : BatchUpdateParams Auth :=
  {| bu_auth := auth;
     bu_spreadsheetId := spreadsheetId;
     bu_key := requestBody;
     bu_requests := [OneRequest payload] |}.

Definition grid_params (payload : Request) : BatchUpdateParams Auth :=
  {| bu_auth := auth;
     bu_spreadsheetId := spreadsheetId;
     bu_key := resource;
     bu_requests := [OneRequest payload] |}.

End SummaryHandler.

(* ===================================================================== *)
(** ** Observations on runs and traces *)
(* ===================================================================== *)

Section Observations.

Context {World Auth TabId : Type}.

Definition result_of {A} (x : outcome A * Store World * list (event Auth TabId)) :
  outcome A := fst (fst x).
Definition store_of {A} (x : outcome A * Store World * list (event Auth TabId)) :
  Store World := snd (fst x).
Definition trace_of {A} (x : outcome A * Store World * list (event Auth TabId)) :
  list (event Auth TabId) := snd x.

Definition fname_eqb (f g : fname) : bool :=
  match f, g with
  | FaddColumnsAndRows, FaddColumnsAndRows
  | FsendSummaryHeaders, FsendSummaryHeaders
  | FsendSummaryBody, FsendSummaryBody
  | FsendSummaryGrid, FsendSummaryGrid
  | FsummaryHeaderStyling, FsummaryHeaderStyling => true
  | _, _ => false
  end.

(** The function [f] is invoked. *)
Definition is_enter (f : fname) (e : event Auth TabId) : bool :=
  match e with
  | Enter g => fname_eqb f g
  | _ => false
  end.

(** A request to the Sheets client, of any kind. *)
Definition is_write_call (e : event Auth TabId) : bool :=
  match e with
  | Ext (Cvalues_batchUpdate _) _ => true
  | Ext (CbatchUpdate _ _) _ => true
  | _ => false
  end.

(** A [batchUpdate] handed a callback, which only [sendSummaryGrid] does. *)
Definition is_callback_call (e : event Auth TabId) : bool :=
  match e with
  | Ext (CbatchUpdate _ true) _ => true
  | _ => false
  end.

(** A call to the payload builder. *)
Definition is_construct_call (e : event Auth TabId) : bool :=
  match e with
  | Ext (CconstructPayloadForCopyPaste _ _) _ => true
  | _ => false
  end.

(** One of the five calls that precede provisioning. *)
Definition is_input_call (e : event Auth TabId) : bool :=
  match e with
  | Ext CgetExistingTabTitlesInRange _ => true
  | Ext (CgetLastMonthTabTitles _) _ => true
  | Ext CcreateSummaryTitle _ => true
  | Ext (CcreateNewTab _) _ => true
  | Ext (CconstructPayloadForCopyPaste _ _) _ => true
  | _ => false
  end.

(** A line printed by [console.error]. *)
Definition is_console (e : event Auth TabId) : bool :=
  match e with
  | ConsoleError _ => true
  | _ => false
  end.

(** Number of events of a kind in a trace. *)
Definition count (p : event Auth TabId -> bool) (t : list (event Auth TabId)) : nat :=
  length (filter p t).

(** What the [catch] of a write step prints when its request settled
    with [r]. *)
Definition caught (label : string) (r : option thrown) : list (event Auth TabId) :=
  match r with
  | None => []
  | Some e => [ConsoleError [LStr label; LErr e]]
  end.

(** Events that [addColumnsAndRows] can leave. *)
Definition is_provisioning_event (e : event Auth TabId) : bool :=
  match e with
  | Enter FaddColumnsAndRows => true
  | Exit FaddColumnsAndRows _ => true
  | Ext (CgetTabIdFromTitle _) _ => true
  | Ext (CaddColumnsAndRowsToTabId _ _ _) _ => true
  | ConsoleError _ => true
  | _ => false
  end.

(** Marks of a failed provisioning: a rejected lookup, a rejected resize,
    or [addColumnsAndRows] leaving by a throw. *)
Definition is_provisioning_failure (e : event Auth TabId) : bool :=
  match e with
  | Exit FaddColumnsAndRows (Some _) => true
  | Ext (CgetTabIdFromTitle _) (Some _) => true
  | Ext (CaddColumnsAndRowsToTabId _ _ _) (Some _) => true
  | _ => false
  end.

Definition is_write_step (f : fname) : bool :=
  match f with
  | FsendSummaryHeaders | FsendSummaryBody | FsummaryHeaderStyling => true
  | _ => false
  end.

(** Events that the three write steps of [handleSummary] can leave. *)
Definition is_write_phase_event (e : event Auth TabId) : bool :=
  match e with
  | Enter f => is_write_step f
  | Exit f None => is_write_step f
  | Ext (Cvalues_batchUpdate _) _ => true
  | Ext (CbatchUpdate _ false) _ => true
  | ConsoleError _ => true
  | _ => false
  end.

(** The request of the header step failed. *)
Definition is_failed_header_write (e : event Auth TabId) : bool :=
  match e with
  | Ext (Cvalues_batchUpdate _) (Some _) => true
  | _ => false
  end.

(** The request of the body step: [batchUpdate] with [resource]. *)
Definition is_body_write (e : event Auth TabId) : bool :=
  match e with
  | Ext (CbatchUpdate p false) _ =>
      match bu_key p with resource => true | requestBody => false end
  | _ => false
  end.

(** A write step is invoked. *)
Definition is_write_step_enter (e : event Auth TabId) : bool :=
  match e with
  | Enter f => is_write_step f
  | _ => false
  end.

(** The request of the styling step failed. *)
Definition is_failed_style_write (e : event Auth TabId) : bool :=
  match e with
  | Ext (CbatchUpdate p false) (Some _) =>
      match bu_key p with requestBody => true | resource => false end
  | _ => false
  end.

(** A call to the title lookup. *)
Definition is_lookup_call (e : event Auth TabId) : bool :=
  match e with
  | Ext (CgetTabIdFromTitle _) _ => true
  | _ => false
  end.

(** A resize request. *)
Definition is_resize_call (e : event Auth TabId) : bool :=
  match e with
  | Ext (CaddColumnsAndRowsToTabId _ _ _) _ => true
  | _ => false
  end.

(** Any call that leaves the module. *)
Definition is_ext (e : event Auth TabId) : bool :=
  match e with
  | Ext _ _ => true
  | _ => false
  end.

(** The request of the header step. *)
Definition is_header_write (e : event Auth TabId) : bool :=
  match e with
  | Ext (Cvalues_batchUpdate _) _ => true
  | _ => false
  end.

(** The request of the styling step: [batchUpdate] with [requestBody]. *)
Definition is_style_write (e : event Auth TabId) : bool :=
  match e with
  | Ext (CbatchUpdate p false) _ =>
      match bu_key p with requestBody => true | resource => false end
  | _ => false
  end.

(** A request to the Sheets client that was rejected. *)
Definition is_failed_write (e : event Auth TabId) : bool :=
  match e with
  | Ext (Cvalues_batchUpdate _) (Some _) => true
  | Ext (CbatchUpdate _ _) (Some _) => true
  | _ => false
  end.

(** [addColumnsAndRows] leaves by a throw. *)
Definition is_provisioning_throw (e : event Auth TabId) : bool :=
  match e with
  | Exit FaddColumnsAndRows (Some _) => true
  | _ => false
  end.

(** One of the five input calls, settled without a throw. *)
Definition is_settled_input (e : event Auth TabId) : bool :=
  match e with
  | Ext c None => is_input_call (Ext c None)
  | _ => false
  end.


End Observations.

(* ===================================================================== *)
(** ** Runs and their shapes *)
(* ===================================================================== *)

Definition provisioning_error : thrown :=
  Error_ "Unable to add columns and rows to the sheet.".

Section Specifications.

Context {World Auth TabId : Type}.
Variable auth : Auth.
Variable spreadsheetId : string.
Variable HEADER_INDICATORS : list string.
Variable C : Collaborators World Auth TabId.

Local Abbreviation Ev := (event Auth TabId).
Local Abbreviation Run := (outcome unit * Store World * list Ev)%type.

(** The four ways [addColumnsAndRows] can run. *)
Inductive provisioning_run
    (columns : Z) (payload : list Request) (title : string) (s : Store World) :
    Run -> Prop :=
| prov_dimensions_throw cause :
    numberOfRowsNeeded (max_arguments C) payload = Threw cause ->
    provisioning_run columns payload title s
      (Threw provisioning_error, s,
       [Enter FaddColumnsAndRows;
        ConsoleError [LStr "Error in adding columns and rows:"; LErr cause];
        Exit FaddColumnsAndRows (Some provisioning_error)])
| prov_lookup_throw rows cause s1 :
    numberOfRowsNeeded (max_arguments C) payload = Returned rows ->
    getTabIdFromTitle C title s = (Threw cause, s1) ->
    provisioning_run columns payload title s
      (Threw provisioning_error, s1,
       [Enter FaddColumnsAndRows;
        Ext (CgetTabIdFromTitle title) (Some cause);
        ConsoleError [LStr "Error in adding columns and rows:"; LErr cause];
        Exit FaddColumnsAndRows (Some provisioning_error)])
| prov_resize_throw rows id s1 cause s2 :
    numberOfRowsNeeded (max_arguments C) payload = Returned rows ->
    getTabIdFromTitle C title s = (Returned id, s1) ->
    addColumnsAndRowsToTabId C id columns rows s1 = (Threw cause, s2) ->
    provisioning_run columns payload title s
      (Threw provisioning_error, s2,
       [Enter FaddColumnsAndRows;
        Ext (CgetTabIdFromTitle title) None;
        Ext (CaddColumnsAndRowsToTabId id columns rows) (Some cause);
        ConsoleError [LStr "Error in adding columns and rows:"; LErr cause];
        Exit FaddColumnsAndRows (Some provisioning_error)])
| prov_done rows id s1 u s2 :
    numberOfRowsNeeded (max_arguments C) payload = Returned rows ->
    getTabIdFromTitle C title s = (Returned id, s1) ->
    addColumnsAndRowsToTabId C id columns rows s1 = (Returned u, s2) ->
    provisioning_run columns payload title s
      (Returned tt, s2,
       [Enter FaddColumnsAndRows;
        Ext (CgetTabIdFromTitle title) None;
        Ext (CaddColumnsAndRowsToTabId id columns rows) None;
        Exit FaddColumnsAndRows None]).

(** The three ways [handleSummary] can run. *)
Inductive pipeline_run (s : Store World) : Run -> Prop :=
| run_inputs_throw e s1 t1 :
    gather_inputs C s = (Threw e, s1, t1) ->
    pipeline_run s (Threw e, s1, t1)
| run_provisioning_throw titles title ref s1 t1 e s2 t2 :
    gather_inputs C s = (Returned (titles, title, ref), s1, t1) ->
    addColumnsAndRows C title titles HEADER_INDICATORS
      (bodyPayload (heap s1 ref)) title s1 = (Threw e, s2, t2) ->
    pipeline_run s (Threw e, s2, t1 ++ t2)
| run_writes titles title ref s1 t1 s2 t2 :
    gather_inputs C s = (Returned (titles, title, ref), s1, t1) ->
    addColumnsAndRows C title titles HEADER_INDICATORS
      (bodyPayload (heap s1 ref)) title s1 = (Returned tt, s2, t2) ->
    pipeline_run s
      (Returned tt,
       store_of (write_phase auth spreadsheetId C title ref s2),
       t1 ++ t2 ++ trace_of (write_phase auth spreadsheetId C title ref s2)).

(** The entry is a copy-paste request whose destination has end row [z]. *)
Definition entry_end_row (item : Request) (z : Z) : Prop :=
  exists cp d,
    item = ReqCopyPaste cp /\ destination cp = Some d /\ endRowIndex d = Some z.

(** The trace [t] ends with the header step, then the body step, then
    the styling step, each entered, issuing its one request and left
    before the next is entered, and nothing before them enters a write
    step or calls the Sheets client. *)
Definition writes_in_order (t : list Ev) : Prop :=
  exists before header body style rh rb rs,
    t = before
        ++ [Enter FsendSummaryHeaders;
            Ext (Cvalues_batchUpdate (header_params auth spreadsheetId header)) rh]
        ++ caught "An error occurred:" rh
        ++ [Exit FsendSummaryHeaders None;
            Enter FsendSummaryBody;
            Ext (CbatchUpdate (body_params auth spreadsheetId body) false) rb]
        ++ caught ("Error writing to project: " ++ spreadsheetId) rb
        ++ [Exit FsendSummaryBody None;
            Enter FsummaryHeaderStyling;
            Ext (CbatchUpdate (style_params auth spreadsheetId style) false) rs]
        ++ caught "An error occurred:" rs
        ++ [Exit FsummaryHeaderStyling None] /\
    count is_write_call before = 0%nat /\
    count is_write_step_enter before = 0%nat.


(** An entry from which [item.copyPaste.destination] can be read. *)
Definition has_destination (item : Request) : bool :=
  match item with
  | ReqCopyPaste cp =>
      match destination cp with Some _ => true | None => false end
  | _ => false
  end.

(** The two ways the five input calls of [handleSummary] can run: one of
    them throws after the ones before it returned, or all five return. *)
Inductive inputs_run (s : Store World) :
    outcome (list string * string * loc) * Store World * list Ev -> Prop :=
| inputs_throw before c e s1 :
    Forall (fun ev => is_settled_input ev = true) before ->
    is_input_call (Ext c (Some e)) = true ->
    inputs_run s (Threw e, s1, before ++ [Ext c (Some e)])
| inputs_done existing titles title ref s1 :
    inputs_run s
      (Returned (titles, title, ref), s1,
       [Ext CgetExistingTabTitlesInRange None;
        Ext (CgetLastMonthTabTitles existing) None;
        Ext CcreateSummaryTitle None;
        Ext (CcreateNewTab title) None;
        Ext (CconstructPayloadForCopyPaste titles title) None]).

(** A Sheets request carries the module's own [auth] and
    [spreadsheetId]; a values request asks for ['RAW'] input, a
    [batchUpdate] is made without a callback and with a [requests] array
    of one element.  Other events are not constrained. *)
Definition well_addressed (e : Ev) : Prop :=
  match e with
  | Ext (Cvalues_batchUpdate p) _ =>
      vbu_auth p = auth /\ vbu_spreadsheetId p = spreadsheetId /\
      vbu_valueInputOption p = "RAW"
  | Ext (CbatchUpdate p callback) _ =>
      bu_auth p = auth /\ bu_spreadsheetId p = spreadsheetId /\
      callback = false /\ length (bu_requests p) = 1%nat
  | _ => True
  end.

End Specifications.

(* ===================================================================== *)
(** ** A world small enough to run *)
(* ===================================================================== *)

Module Scenario.

(** Which imported calls reject, and with what. *)
Record Faults : Type := {
  lookup_fault : option thrown;
  resize_fault : option thrown;
  header_fault : option thrown;
  body_fault : option thrown;
  style_fault : option thrown
}.

Definition no_fault : Faults :=
  {| lookup_fault := None; resize_fault := None; header_fault := None;
     body_fault := None; style_fault := None |}.

Definition lookup_down : Faults :=
  {| lookup_fault := Some (Foreign "tab not found"); resize_fault := None;
     header_fault := None; body_fault := None; style_fault := None |}.

Definition header_down : Faults :=
  {| lookup_fault := None; resize_fault := None;
     header_fault := Some (Foreign "ECONNRESET"); body_fault := None;
     style_fault := None |}.

Definition style_down : Faults :=
  {| lookup_fault := None; resize_fault := None;
     header_fault := None; body_fault := None;
     style_fault := Some (Foreign "ECONNRESET") |}.

Definition settle {S} (f : option thrown) (s : S) : outcome unit * S :=
  match f with
  | Some e => (Threw e, s)
  | None => (Returned tt, s)
  end.

Definition fresh : loc := 1%positive.

(** The payload builder allocates [p] at [fresh]; nothing else touches
    the heap.  The destination tab has id 7, and the engine takes up to
    130000 arguments in a call. *)
Definition collaborators (p : WritePayload) (f : Faults) : Collaborators unit unit Z :=
  {| max_arguments := 130000%N;
     getExistingTabTitlesInRange := fun s => (Returned ["Dec-1"; "Jan-1"; "Jan-2"], s);
     getLastMonthTabTitles := fun _ s => (Returned ["Jan-1"; "Jan-2"], s);
     createSummaryTitle := fun s => (Returned "Summary", s);
     createNewTab := fun _ s => (Returned tt, s);
     constructPayloadForCopyPaste := fun _ _ s =>
       (Returned fresh,
        {| world := world s;
           heap := fun l => if Pos.eqb l fresh then p else heap s l |});
     getTabIdFromTitle := fun _ s =>
       match lookup_fault f with
       | Some e => (Threw e, s)
       | None => (Returned 7%Z, s)
       end;
     addColumnsAndRowsToTabId := fun _ _ _ s => settle (resize_fault f) s;
     values_batchUpdate := fun _ s => settle (header_fault f) s;
     batchUpdate := fun prm s =>
       match bu_key prm with
       | resource => settle (body_fault f) s
       | requestBody => settle (style_fault f) s
       end;
     batchUpdate_cb := fun _ s => (Returned tt, s) |}.

Definition to_row (e : Z) : Request :=
  ReqCopyPaste
    {| source := None;
       destination :=
         Some {| sheetId := Some 7%Z; startRowIndex := Some 0%Z; endRowIndex := Some e;
                 startColumnIndex := None; endColumnIndex := None |};
       pasteType := "PASTE_NORMAL" |}.

Definition merge_header : Request :=
  ReqMergeCells
    {| sheetId := Some 7%Z; startRowIndex := Some 0%Z; endRowIndex := Some 1%Z;
       startColumnIndex := Some 0%Z; endColumnIndex := Some 2%Z |}
    "MERGE_ALL".

Definition payload_with (body : list Request) : WritePayload :=
  {| headerPayload := [{| vr_range := "Summary!A1"; vr_values := [["Hours"; "Cost"]] |}];
     bodyPayload := body;
     summaryGridStyles := ReqOther "updateCells" "grid";
     summaryHeaderStylePayload := merge_header |}.

(** Scenario B of the specification: end rows 5, 12 and 8. *)
Definition payload_B : WritePayload := payload_with (map to_row [5; 12; 8]%Z).

Definition empty_payload : WritePayload := payload_with [].

Definition s0 : Store unit := {| world := tt; heap := fun _ => empty_payload |}.

Definition indicators : list string := ["Hours"; "Cost"].

Definition run (p : WritePayload) (f : Faults) :=
  handleSummary tt "sheet-1" indicators (collaborators p f) s0.

(** The same world, except that the tab cannot be created. *)
Definition collaborators_no_tab (p : WritePayload) : Collaborators unit unit Z :=
  {| max_arguments := max_arguments (collaborators p no_fault);
     getExistingTabTitlesInRange := getExistingTabTitlesInRange (collaborators p no_fault);
     getLastMonthTabTitles := getLastMonthTabTitles (collaborators p no_fault);
     createSummaryTitle := createSummaryTitle (collaborators p no_fault);
     createNewTab := fun _ s => (Threw (Foreign "tab already exists"), s);
     constructPayloadForCopyPaste :=
       constructPayloadForCopyPaste (collaborators p no_fault);
     getTabIdFromTitle := getTabIdFromTitle (collaborators p no_fault);
     addColumnsAndRowsToTabId := addColumnsAndRowsToTabId (collaborators p no_fault);
     values_batchUpdate := values_batchUpdate (collaborators p no_fault);
     batchUpdate := batchUpdate (collaborators p no_fault);
     batchUpdate_cb := batchUpdate_cb (collaborators p no_fault) |}.

Definition body_down : Faults :=
  {| lookup_fault := None; resize_fault := None;
     header_fault := None; body_fault := Some (Foreign "ECONNRESET");
     style_fault := None |}.


(** A body payload of 130001 entries, one more than the engine spreads. *)
Definition long_payload : list Request := repeat (to_row 5) (N.to_nat 130001).

Definition run_no_tab :=
  handleSummary tt "sheet-1" indicators (collaborators_no_tab payload_B) s0.

(** A copy-paste entry whose destination has no end row. *)
Definition open_row : Request :=
  ReqCopyPaste
    {| source := None;
       destination :=
         Some {| sheetId := Some 7%Z; startRowIndex := Some 0%Z; endRowIndex := None;
                 startColumnIndex := None; endColumnIndex := None |};
       pasteType := "PASTE_NORMAL" |}.

End Scenario.

(** Case analysis on an event: which kinds it can belong to. *)
Ltac classify :=
  let e := fresh "e" in
  intros e; destruct e as [f|f r|c r|a];
  try destruct f; try destruct c; try destruct r; cbn;
  repeat match goal with
         | |- context [match ?b with _ => _ end] => destruct b; cbn
         end;
  congruence.

(* ===================================================================== *)
(** ** How each function runs *)
(* ===================================================================== *)

Section Runs.

Context {World Auth TabId : Type}.
Variable auth : Auth.
Variable spreadsheetId : string.
Variable HEADER_INDICATORS : list string.
Variable C : Collaborators World Auth TabId.

Local Abbreviation Run := (outcome unit * Store World * list (event Auth TabId))%type.

Lemma addColumnsAndRows_cases pageTitle titles indicators payload title s :
  provisioning_run C (numberOfColumnsNeeded titles indicators) payload title s
    (addColumnsAndRows C pageTitle titles indicators payload title s).
Proof.
  unfold addColumnsAndRows, traced, try_catch, bind, lift, extern,
    console_error, emit, throw.
  destruct (numberOfRowsNeeded (max_arguments C) payload) as [rows|cause] eqn:Hrows.
  - destruct (getTabIdFromTitle C title s) as [[id|cause] s1] eqn:Hid.
    + destruct (addColumnsAndRowsToTabId C id _ rows s1) as [[u|cause] s2] eqn:Hrs.
      * destruct u. now apply prov_done with (rows := rows) (s1 := s1) (u := tt).
      * now apply prov_resize_throw with (rows := rows) (s1 := s1).
    + now apply prov_lookup_throw with (rows := rows).
  - now apply prov_dimensions_throw.
Qed.

(** The three write steps always return; what differs is the log. *)
Lemma sendSummaryHeaders_run payload s :
  sendSummaryHeaders auth spreadsheetId C payload s =
    let prm := header_params auth spreadsheetId payload in
    let x := values_batchUpdate C prm s in
    (Returned tt, snd x,
     Enter FsendSummaryHeaders
       :: Ext (Cvalues_batchUpdate prm) (thrown_of (fst x))
       :: caught "An error occurred:" (thrown_of (fst x))
       ++ [Exit FsendSummaryHeaders None]).
Proof.
  unfold sendSummaryHeaders, traced, try_catch, extern, console_error, emit,
    header_params.
  cbv zeta.
  destruct (values_batchUpdate C _ s) as [[[]|e] s1]; reflexivity.
Qed.

Lemma sendSummaryBody_run payload extra s :
  sendSummaryBody auth spreadsheetId C payload extra s =
    let prm := body_params auth spreadsheetId payload in
    let x := batchUpdate C prm s in
    (Returned tt, snd x,
     Enter FsendSummaryBody
       :: Ext (CbatchUpdate prm false) (thrown_of (fst x))
       :: caught ("Error writing to project: " ++ spreadsheetId) (thrown_of (fst x))
       ++ [Exit FsendSummaryBody None]).
Proof.
  unfold sendSummaryBody, traced, try_catch, extern, console_error, emit,
    body_params.
  cbv zeta.
  destruct (batchUpdate C _ s) as [[[]|e] s1]; reflexivity.
Qed.

Lemma summaryHeaderStyling_run payload s :
  summaryHeaderStyling auth spreadsheetId C payload s =
    let prm := style_params auth spreadsheetId payload in
    let x := batchUpdate C prm s in
    (Returned tt, snd x,
     Enter FsummaryHeaderStyling
       :: Ext (CbatchUpdate prm false) (thrown_of (fst x))
       :: caught "An error occurred:" (thrown_of (fst x))
       ++ [Exit FsummaryHeaderStyling None]).
Proof.
  unfold summaryHeaderStyling, traced, try_catch, extern, console_error, emit,
    style_params.
  cbv zeta.
  destruct (batchUpdate C _ s) as [[[]|e] s1]; reflexivity.
Qed.


Lemma write_phase_run title ref s :
  write_phase auth spreadsheetId C title ref s =
    let rH := sendSummaryHeaders auth spreadsheetId C (headerPayload (heap s ref)) s in
    let rB := sendSummaryBody auth spreadsheetId C
                (bodyPayload (heap (store_of rH) ref)) title (store_of rH) in
    let rS := summaryHeaderStyling auth spreadsheetId C
                (summaryHeaderStylePayload (heap (store_of rB) ref)) (store_of rB) in
    (Returned tt, store_of rS, trace_of rH ++ trace_of rB ++ trace_of rS).
Proof.
  unfold write_phase, bind, get_field.
  rewrite sendSummaryHeaders_run. cbv zeta. cbn [store_of trace_of fst snd].
  rewrite sendSummaryBody_run. cbv zeta. cbn [store_of trace_of fst snd].
  rewrite summaryHeaderStyling_run. cbv zeta. cbn [store_of trace_of fst snd app].
  reflexivity.
Qed.

(** [handleSummary] is its input calls, then provisioning, then the
    writes; a throw in one of the first two ends the run. *)
Lemma handleSummary_phases s :
  handleSummary auth spreadsheetId HEADER_INDICATORS C s =
    match gather_inputs C s with
    | (Threw e, s1, t1) => (Threw e, s1, t1)
    | (Returned (titles, title, ref), s1, t1) =>
        match addColumnsAndRows C title titles HEADER_INDICATORS
                (bodyPayload (heap s1 ref)) title s1 with
        | (Threw e, s2, t2) => (Threw e, s2, t1 ++ t2)
        | (Returned _, s2, t2) =>
            let '(r, s3, t3) := write_phase auth spreadsheetId C title ref s2 in
            (r, s3, t1 ++ t2 ++ t3)
        end
    end.
Proof.
  unfold handleSummary, gather_inputs, bind, extern, ret, get_field.
  destruct (getExistingTabTitlesInRange C s) as [[existing|e] s1]; [|reflexivity].
  destruct (getLastMonthTabTitles C existing s1) as [[titles|e] s2]; [|reflexivity].
  destruct (createSummaryTitle C s2) as [[title|e] s3]; [|reflexivity].
  destruct (createNewTab C title s3) as [[u|e] s4]; [|reflexivity].
  destruct (constructPayloadForCopyPaste C titles title s4) as [[ref|e] s5];
    [|reflexivity].
  cbn [app].
  destruct (addColumnsAndRows C title titles HEADER_INDICATORS _ title s5)
    as [[[u'|e] s6] t2]; [|reflexivity].
  fold (@get_field World Auth TabId).
  change (write_phase auth spreadsheetId C title ref s6) with
    (bind (get_field ref headerPayload)
       (fun header => bind (sendSummaryHeaders auth spreadsheetId C header)
       (fun _ => bind (get_field ref bodyPayload)
       (fun body => bind (sendSummaryBody auth spreadsheetId C body title)
       (fun _ => bind (get_field ref summaryHeaderStylePayload)
       (fun style => summaryHeaderStyling auth spreadsheetId C style))))) s6).
  unfold bind, get_field.
  destruct (sendSummaryHeaders auth spreadsheetId C _ s6) as [[[uh|e] s7] t3];
    [|reflexivity].
  destruct (sendSummaryBody auth spreadsheetId C _ title s7) as [[[ub|e] s8] t4].
  - destruct (summaryHeaderStyling auth spreadsheetId C _ s8) as [[r s9] t5].
    cbn [app]. reflexivity.
  - cbn [app]. reflexivity.
Qed.

(** The input calls leave only input-call events, and the payload builder
    is called at most once: exactly once when they all return. *)
Lemma gather_inputs_trace s :
  Forall (fun e => is_input_call e = true) (trace_of (gather_inputs C s)) /\
  (count is_construct_call (trace_of (gather_inputs C s)) <= 1)%nat /\
  (forall x, result_of (gather_inputs C s) = Returned x ->
     count is_construct_call (trace_of (gather_inputs C s)) = 1%nat).
Proof.
  unfold gather_inputs, bind, extern, ret.
  destruct (getExistingTabTitlesInRange C s) as [[existing|e] s1].
  2:{ cbn. repeat split; try lia; try discriminate; repeat constructor. }
  destruct (getLastMonthTabTitles C existing s1) as [[titles|e] s2].
  2:{ cbn. repeat split; try lia; try discriminate; repeat constructor. }
  destruct (createSummaryTitle C s2) as [[title|e] s3].
  2:{ cbn. repeat split; try lia; try discriminate; repeat constructor. }
  destruct (createNewTab C title s3) as [[u|e] s4].
  2:{ cbn. repeat split; try lia; try discriminate; repeat constructor. }
  destruct (constructPayloadForCopyPaste C titles title s4) as [[ref|e] s5].
  2:{ cbn. repeat split; try lia; try discriminate; repeat constructor. }
  cbn. repeat split; try lia; repeat constructor.
Qed.

End Runs.

(* ===================================================================== *)
(** ** The planned dimensions *)
(* ===================================================================== *)

Section Dimensions.

Local Open Scope Z_scope.

Lemma fold_max_spec (zs : list Z) (a : Z) :
  In (fold_left Z.max zs a) (a :: zs) /\
  (forall z, In z (a :: zs) -> z <= fold_left Z.max zs a).
Proof.
  revert a. induction zs as [|b zs IH]; intros a; cbn [fold_left].
  - split; [now left|]. intros z [<-|[]]. lia.
  - destruct (IH (Z.max a b)) as [Hin Hub]. split.
    + destruct Hin as [Heq|Hin].
      * rewrite <- Heq. destruct (Z.max_spec a b) as [[_ ->]|[_ ->]].
        -- right. now left.
        -- now left.
      * right. now right.
    + intros z Hz.
      assert (Hstep : Z.max a b <= fold_left Z.max zs (Z.max a b))
        by (apply Hub; now left).
      destruct Hz as [<-|[<-|Hz]]; [lia|lia|].
      apply Hub. now right.
Qed.

Lemma Math_max_from (zs : list Z) (a : Z) :
  fold_left max_step (map ToNumber (map Some zs)) (Num a) = Num (fold_left Z.max zs a).
Proof.
  revert a. induction zs as [|b zs IH]; intros a; [reflexivity|].
  cbn [map fold_left ToNumber max_step]. apply IH.
Qed.

Lemma Math_max_integers (z : Z) (zs : list Z) :
  Math_max (map ToNumber (map Some (z :: zs))) = Num (fold_left Z.max zs z).
Proof. unfold Math_max. cbn [map fold_left ToNumber max_step]. apply Math_max_from. Qed.

(** What the callback of [payload.map] reads from an entry with an end
    row, and the only way it reads an integer. *)
Lemma entry_end_row_read (item : Request) (z : Z) :
  entry_end_row item z <-> item_endRowIndex item = Returned (Some z).
Proof.
  split.
  - intros (cp & d & -> & Hd & Hz). cbn. now rewrite Hd, Hz.
  - destruct item as [cp| |]; cbn; try discriminate.
    destruct (destination cp) as [d|] eqn:Hd; [|discriminate].
    intros [= Hz]. now exists cp, d.
Qed.

Lemma end_row_unique (item : Request) (z z' : Z) :
  entry_end_row item z -> entry_end_row item z' -> z = z'.
Proof. rewrite !entry_end_row_read. congruence. Qed.

Lemma array_map_end_rows (payload : list Request) :
  (forall item, In item payload -> exists z, entry_end_row item z) ->
  exists zs,
    array_map item_endRowIndex payload = Returned (map Some zs) /\
    Forall2 entry_end_row payload zs.
Proof.
  induction payload as [|item payload IH]; intros Hwf.
  - exists []. split; [reflexivity|constructor].
  - destruct (Hwf item (or_introl eq_refl)) as [z Hz].
    destruct IH as [zs [Hmap Hall]]; [intros i Hi; apply Hwf; now right|].
    exists (z :: zs). cbn [array_map map].
    rewrite (proj1 (entry_end_row_read item z) Hz), Hmap.
    split; [reflexivity|now constructor].
Qed.

Lemma end_rows_cover_r (payload : list Request) (zs : list Z) (z : Z) :
  Forall2 entry_end_row payload zs ->
  In z zs ->
  exists item, In item payload /\ entry_end_row item z.
Proof.
  induction 1 as [|item z0 payload zs Hz Hall IH]; intros Hin; [destruct Hin|].
  destruct Hin as [<-|Hin].
  - exists item. split; [now left|exact Hz].
  - destruct (IH Hin) as [it [Hit Hr]]. exists it. split; [now right|exact Hr].
Qed.

Lemma end_rows_cover_l (payload : list Request) (zs : list Z) (item : Request) :
  Forall2 entry_end_row payload zs ->
  In item payload ->
  exists z, In z zs /\ entry_end_row item z.
Proof.
  induction 1 as [|item0 z payload zs Hz Hall IH]; intros Hin; [destruct Hin|].
  destruct Hin as [<-|Hin].
  - exists z. split; [now left|exact Hz].
  - destruct (IH Hin) as [z' [Hz' Hr]]. exists z'. split; [now right|exact Hr].
Qed.

(** On a payload of entries with end rows, the spread decides: past the
    engine's limit the call throws, within it the row count is what
    [Math.max] makes of the end rows. *)
Lemma rows_of_end_rows (limit : N) (payload : list Request) (zs : list Z) :
  Forall2 entry_end_row payload zs ->
  numberOfRowsNeeded limit payload =
    if (N.of_nat (length payload) <=? limit)%N
    then Returned (Math_max (map ToNumber (map Some zs)))
    else Threw RangeError.
Proof.
  intros Hall.
  destruct (array_map_end_rows payload) as (zs' & Hmap & Hall').
  { intros item Hin. destruct (end_rows_cover_l _ _ _ Hall Hin) as (z & _ & Hz).
    now exists z. }
  assert (zs' = zs).
  { clear Hmap. revert zs' Hall'.
    induction Hall as [|item z payload zs Hz Hall IH]; intros zs' Hall';
      inversion Hall' as [|item' z' payload' zs'' Hz' Hall'' E1 E2]; subst;
      [reflexivity|].
    f_equal; [apply (end_row_unique item); assumption|now apply IH]. }
  subst zs'. unfold numberOfRowsNeeded, spread_Math_max. rewrite Hmap.
  rewrite !length_map. now rewrite (Forall2_length Hall).
Qed.

(** On a non-empty payload of entries with end rows that the engine can
    spread, the row count is an end row of some entry and no entry has a
    larger one. *)
Lemma numberOfRowsNeeded_is_max (limit : N) (payload : list Request) :
  payload <> [] ->
  (forall item, In item payload -> exists z, entry_end_row item z) ->
  (N.of_nat (length payload) <= limit)%N ->
  exists m,
    numberOfRowsNeeded limit payload = Returned (Num m) /\
    (exists item, In item payload /\ entry_end_row item m) /\
    (forall item z, In item payload -> entry_end_row item z -> z <= m).
Proof.
  intros Hne Hwf Hlen.
  destruct (array_map_end_rows payload Hwf) as [zs [_ Hall]].
  pose proof (rows_of_end_rows limit payload zs Hall) as Hrows.
  apply N.leb_le in Hlen. rewrite Hlen in Hrows.
  destruct Hall as [|item z payload zs Hz Hall]; [congruence|].
  exists (fold_left Z.max zs z).
  destruct (fold_max_spec zs z) as [Hin Hub].
  split; [|split].
  - rewrite Hrows. now rewrite Math_max_integers.
  - destruct Hin as [Heq|Hin].
    + exists item. split; [now left|]. now rewrite <- Heq.
    + destruct (end_rows_cover_r _ _ _ Hall Hin) as [it [Hit Hr]].
      exists it. split; [now right|exact Hr].
  - intros it z' [<-|Hit] Hz'.
    + apply Hub. left. apply (end_row_unique item); assumption.
    + destruct (end_rows_cover_l _ _ _ Hall Hit) as [z'' [Hz'' Hr]].
      apply Hub. right. now rewrite (end_row_unique it z' z'' Hz' Hr).
Qed.

Lemma rows_of_empty (limit : N) : numberOfRowsNeeded limit [] = Returned NegInfinity.
Proof. now destruct limit. Qed.

(** Past the engine's limit the spread throws, whatever the end rows. *)
Lemma rows_beyond_limit (limit : N) (payload : list Request) :
  (forall item, In item payload -> exists z, entry_end_row item z) ->
  (limit < N.of_nat (length payload))%N ->
  numberOfRowsNeeded limit payload = Threw RangeError.
Proof.
  intros Hwf Hlen.
  destruct (array_map_end_rows payload Hwf) as [zs [_ Hall]].
  rewrite (rows_of_end_rows limit payload zs Hall).
  apply N.leb_gt in Hlen. now rewrite Hlen.
Qed.

End Dimensions.

(* ===================================================================== *)
(** ** The shape of a run of [handleSummary] *)
(* ===================================================================== *)

Section Shapes.

Context {World Auth TabId : Type}.
Variable auth : Auth.
Variable spreadsheetId : string.
Variable HEADER_INDICATORS : list string.
Variable C : Collaborators World Auth TabId.

Local Abbreviation Ev := (event Auth TabId).
Local Abbreviation Run := (outcome unit * Store World * list Ev)%type.

Lemma count_app (p : Ev -> bool) (t u : list Ev) :
  count p (t ++ u) = (count p t + count p u)%nat.
Proof. unfold count. now rewrite filter_app, length_app. Qed.

(** No event of kind [p] in a trace all of whose events are of a kind [q]
    that excludes [p]. *)
Lemma count_excluded (p q : Ev -> bool) (t : list Ev) :
  (forall e, q e = true -> p e = false) ->
  Forall (fun e => q e = true) t ->
  count p t = 0%nat.
Proof.
  intros Hex Hall. unfold count.
  induction Hall as [|e t He _ IH]; [reflexivity|].
  cbn [filter]. now rewrite (Hex e He).
Qed.

Lemma not_in_excluded (p q : Ev -> bool) (t : list Ev) (e : Ev) :
  (forall e, q e = true -> p e = false) ->
  Forall (fun e => q e = true) t ->
  In e t -> p e = true -> False.
Proof.
  intros Hex Hall Hin Hp. rewrite Forall_forall in Hall.
  specialize (Hex e (Hall e Hin)). congruence.
Qed.

Lemma provisioning_trace columns payload title s (x : Run) :
  provisioning_run C columns payload title s x ->
  Forall (fun e => is_provisioning_event e = true) (trace_of x).
Proof. intros []; cbn; repeat constructor. Qed.

(** The trace of the three writes: every step is entered, issues one
    request, logs if the request failed, and returns before the next
    step is entered. *)
Lemma write_phase_shape title ref s :
  exists header body style rh rb rs,
    trace_of (write_phase auth spreadsheetId C title ref s) =
      [Enter FsendSummaryHeaders;
       Ext (Cvalues_batchUpdate (header_params auth spreadsheetId header)) rh]
      ++ caught "An error occurred:" rh
      ++ [Exit FsendSummaryHeaders None;
          Enter FsendSummaryBody;
          Ext (CbatchUpdate (body_params auth spreadsheetId body) false) rb]
      ++ caught ("Error writing to project: " ++ spreadsheetId) rb
      ++ [Exit FsendSummaryBody None;
          Enter FsummaryHeaderStyling;
          Ext (CbatchUpdate (style_params auth spreadsheetId style) false) rs]
      ++ caught "An error occurred:" rs
      ++ [Exit FsummaryHeaderStyling None] /\
    result_of (write_phase auth spreadsheetId C title ref s) = Returned tt.
Proof.
  rewrite write_phase_run. cbv zeta.
  rewrite sendSummaryHeaders_run. cbv zeta. cbn [store_of trace_of result_of fst snd].
  rewrite sendSummaryBody_run. cbv zeta. cbn [store_of trace_of result_of fst snd].
  rewrite summaryHeaderStyling_run. cbv zeta. cbn [store_of trace_of result_of fst snd].
  do 6 eexists. split; [|reflexivity].
  cbn [app]. rewrite <- !app_assoc. cbn [app]. reflexivity.
Qed.

Lemma caught_write_phase label r :
  Forall (fun e : Ev => is_write_phase_event e = true) (caught label r).
Proof. destruct r; cbn; repeat constructor. Qed.

Lemma write_phase_trace title ref s :
  Forall (fun e => is_write_phase_event e = true)
    (trace_of (write_phase auth spreadsheetId C title ref s)).
Proof.
  destruct (write_phase_shape title ref s)
    as (header & body & style & rh & rb & rs & -> & _).
  repeat (apply Forall_app; split);
    try apply caught_write_phase; repeat constructor.
Qed.

Lemma handleSummary_cases s :
  pipeline_run auth spreadsheetId HEADER_INDICATORS C s
    (handleSummary auth spreadsheetId HEADER_INDICATORS C s).
Proof.
  rewrite handleSummary_phases.
  destruct (gather_inputs C s) as [[[[[titles title] ref]|e] s1] t1] eqn:Hin.
  - destruct (addColumnsAndRows C title titles HEADER_INDICATORS _ title s1)
      as [[[[]|e] s2] t2] eqn:Hprov.
    + destruct (write_phase_shape title ref s2)
        as (header & body & style & rh & rb & rs & _ & Hres).
      destruct (write_phase auth spreadsheetId C title ref s2) as [[r s3] t3] eqn:Hw.
      cbn [result_of fst] in Hres. subst r.
      replace s3 with (store_of (write_phase auth spreadsheetId C title ref s2))
        by now rewrite Hw.
      replace t3 with (trace_of (write_phase auth spreadsheetId C title ref s2))
        by now rewrite Hw.
      now apply run_writes with (titles := titles) (s1 := s1).
    + now apply run_provisioning_throw with (titles := titles) (title := title)
                                            (ref := ref) (s1 := s1).
  - now apply run_inputs_throw.
Qed.

End Shapes.

(* ===================================================================== *)
(** ** Properties of the pipeline *)
(* ===================================================================== *)

Section Claims.

Context {World Auth TabId : Type}.
Variable auth : Auth.
Variable spreadsheetId : string.
Variable HEADER_INDICATORS : list string.
Variable C : Collaborators World Auth TabId.

Local Abbreviation Ev := (event Auth TabId).

(** Whatever resize request [addColumnsAndRows] issues carries the
    planned columns and rows. *)
Lemma resize_request_arguments pageTitle titles indicators payload title s
      id columns rows r :
  In (Ext (CaddColumnsAndRowsToTabId id columns rows) r)
     (trace_of (addColumnsAndRows C pageTitle titles indicators payload title s)) ->
  columns = numberOfColumnsNeeded titles indicators /\
  numberOfRowsNeeded (max_arguments C) payload = Returned rows.
Proof.
  intros Hin.
  destruct (addColumnsAndRows_cases C pageTitle titles indicators payload title s)
    as [cause Hrows|rows0 cause s1 Hrows Hid|rows0 id0 s1 cause s2 Hrows Hid Hrs
        |rows0 id0 s1 u s2 Hrows Hid Hrs];
    cbn [trace_of snd In] in Hin;
    repeat (destruct Hin as [Hin|Hin]; [try discriminate|]); try contradiction;
    inversion Hin; subst; now split.
Qed.

(** C4, as the code has it. Take a non-empty body payload whose entries
    all are copy-paste requests with a destination end row.  If the engine
    can spread it (its length is within the engine's limit on the arguments
    of a call), the planned number of rows is the maximum of the end rows:
    it is the end row of some entry and no entry has a larger one, it is
    the same for every reordering of the entries, and it is the row count
    of any resize request that [addColumnsAndRows] issues.  If the payload
    is longer than that limit, [Math.max(...)] throws a [RangeError]: no
    row count is computed, no resize request is issued and
    [addColumnsAndRows] throws its fixed error. *)
Theorem C4_rows_is_max_end_row (payload : list Request) :
  payload <> [] ->
  (forall item, In item payload -> exists z, entry_end_row item z) ->
  ((N.of_nat (length payload) <= max_arguments C)%N ->
   exists m : Z,
     numberOfRowsNeeded (max_arguments C) payload = Returned (Num m) /\
     (exists item, In item payload /\ entry_end_row item m) /\
     (forall item z, In item payload -> entry_end_row item z -> (z <= m)%Z) /\
     (forall payload',
        Permutation payload payload' ->
        numberOfRowsNeeded (max_arguments C) payload' = Returned (Num m)) /\
     (forall pageTitle titles indicators title s id columns rows r,
        In (Ext (CaddColumnsAndRowsToTabId id columns rows) r)
           (trace_of (addColumnsAndRows C pageTitle titles indicators payload title s)) ->
        rows = Num m)) /\
  ((max_arguments C < N.of_nat (length payload))%N ->
   numberOfRowsNeeded (max_arguments C) payload = Threw RangeError /\
   forall pageTitle titles indicators title s,
     let run := addColumnsAndRows C pageTitle titles indicators payload title s in
     result_of run = Threw provisioning_error /\
     count is_resize_call (trace_of run) = 0%nat).
Proof.
  intros Hne Hwf. split.
  - intros Hlen.
    destruct (numberOfRowsNeeded_is_max _ payload Hne Hwf Hlen) as (m & Hm & Hatt & Hub).
    exists m. repeat split; try assumption.
    + intros payload' Hperm.
      assert (Hne' : payload' <> []).
      { intros ->. apply Permutation_sym, Permutation_nil in Hperm. contradiction. }
      assert (Hwf' : forall item, In item payload' -> exists z, entry_end_row item z).
      { intros item Hin. apply Hwf.
        apply (Permutation_in item (Permutation_sym Hperm) Hin). }
      assert (Hlen' : (N.of_nat (length payload') <= max_arguments C)%N)
        by now rewrite <- (Permutation_length Hperm).
      destruct (numberOfRowsNeeded_is_max _ payload' Hne' Hwf' Hlen')
        as (m' & Hm' & Hatt' & Hub').
      destruct Hatt as (i & Hi & Him). destruct Hatt' as (j & Hj & Hjm).
      assert (m <= m')%Z by (apply (Hub' i m); [apply (Permutation_in i Hperm Hi)|exact Him]).
      assert (m' <= m)%Z
        by (apply (Hub j m');
            [apply (Permutation_in j (Permutation_sym Hperm) Hj)|exact Hjm]).
      rewrite Hm'. do 2 f_equal. lia.
    + intros pageTitle titles indicators title s id columns rows r Hin.
      apply resize_request_arguments in Hin. destruct Hin as [_ Hrows]. congruence.
  - intros Hlen. pose proof (rows_beyond_limit _ payload Hwf Hlen) as Hthrow.
    split; [exact Hthrow|].
    intros pageTitle titles indicators title s run. subst run.
    destruct (addColumnsAndRows_cases C pageTitle titles indicators payload title s);
      try congruence.
    now split.
Qed.

(** C5. For all lists of prior-period titles and of header indicators,
    empty ones included, the planned number of columns is the product of
    their lengths; it is the column count of any resize request that
    [addColumnsAndRows] issues; two titles and two indicators give 4. *)
Theorem C5_columns_is_product (titles indicators : list string) :
  numberOfColumnsNeeded titles indicators
    = Z.of_nat (length titles * length indicators) /\
  (forall pageTitle payload title s id columns rows r,
     In (Ext (CaddColumnsAndRowsToTabId id columns rows) r)
        (trace_of (addColumnsAndRows C pageTitle titles indicators payload title s)) ->
     columns = Z.of_nat (length titles * length indicators)) /\
  numberOfColumnsNeeded ["Jan-1"; "Jan-2"] ["Hours"; "Cost"] = 4%Z /\
  numberOfColumnsNeeded [] indicators = 0%Z /\
  numberOfColumnsNeeded titles [] = 0%Z.
Proof.
  assert (Hprod : numberOfColumnsNeeded titles indicators
                  = Z.of_nat (length titles * length indicators))
    by (unfold numberOfColumnsNeeded; now rewrite Nat2Z.inj_mul).
  repeat split.
  - exact Hprod.
  - intros pageTitle payload title s id columns rows r Hin.
    apply resize_request_arguments in Hin. destruct Hin as [-> _]. exact Hprod.
  - unfold numberOfColumnsNeeded. cbn [length]. lia.
Qed.

(** C6, as the code has it. With an empty body payload the row
    computation does not fail: [Math.max()] is [-Infinity].  The title
    lookup is still called, and when it returns an id the resize request
    is issued for that id with [-Infinity] rows; the stage then returns
    or throws as the resize request does. *)
Theorem C6_empty_payload_still_provisions pageTitle titles indicators title s :
  let run := addColumnsAndRows C pageTitle titles indicators [] title s in
  numberOfRowsNeeded (max_arguments C) [] = Returned NegInfinity /\
  In (Ext (CgetTabIdFromTitle title) (thrown_of (fst (getTabIdFromTitle C title s))))
     (trace_of run) /\
  (forall id s1,
     getTabIdFromTitle C title s = (Returned id, s1) ->
     let resize :=
       addColumnsAndRowsToTabId C id (numberOfColumnsNeeded titles indicators)
         NegInfinity s1 in
     In (Ext (CaddColumnsAndRowsToTabId id (numberOfColumnsNeeded titles indicators)
                NegInfinity)
             (thrown_of (fst resize)))
        (trace_of run) /\
     result_of run =
       match fst resize with
       | Returned _ => Returned tt
       | Threw _ => Threw provisioning_error
       end).
Proof.
  intros run. split; [apply rows_of_empty|].
  pose proof (addColumnsAndRows_cases C pageTitle titles indicators [] title s) as Hrun.
  fold run in Hrun.
  destruct Hrun
    as [cause Hrows|rows0 cause s1 Hrows Hid|rows0 id0 s1 cause s2 Hrows Hid Hrs
        |rows0 id0 s1 u s2 Hrows Hid Hrs];
    rewrite rows_of_empty in Hrows;
    try discriminate Hrows;
    injection Hrows as <-; rewrite Hid; cbn [fst snd trace_of result_of thrown_of].
  - split; [cbn; tauto|]. intros id s1' [=].
  - split; [cbn; tauto|]. intros id s1' [= <- <-]. cbv zeta. rewrite Hrs.
    cbn. tauto.
  - split; [cbn; tauto|]. intros id s1' [= <- <-]. cbv zeta. rewrite Hrs.
    cbn. tauto.
Qed.

(** C9. Whenever [addColumnsAndRows] throws, the value thrown is the
    [Error] with the one fixed message, whether the cause was the row
    computation, the title lookup or the resize request; the cause is
    handed to [console.error] just before the throw and appears nowhere
    else, so any two failing runs throw the same value. *)
Theorem C9_single_fixed_error pageTitle titles indicators payload title s e :
  result_of (addColumnsAndRows C pageTitle titles indicators payload title s) = Threw e ->
  e = Error_ "Unable to add columns and rows to the sheet." /\
  (exists cause before,
     trace_of (addColumnsAndRows C pageTitle titles indicators payload title s) =
       before ++ [ConsoleError [LStr "Error in adding columns and rows:"; LErr cause];
                  Exit FaddColumnsAndRows (Some e)] /\
     count is_console before = 0%nat /\
     (numberOfRowsNeeded (max_arguments C) payload = Threw cause \/
      In (Ext (CgetTabIdFromTitle title) (Some cause)) before \/
      exists id rows,
        In (Ext (CaddColumnsAndRowsToTabId
                   id (numberOfColumnsNeeded titles indicators) rows) (Some cause))
           before)) /\
  (forall pageTitle' titles' indicators' payload' title' s' e',
     result_of (addColumnsAndRows C pageTitle' titles' indicators' payload' title' s')
       = Threw e' ->
     e' = e).
Proof.
  intros Hres.
  assert (Hfixed : forall pt ts ins p t st e0,
             result_of (addColumnsAndRows C pt ts ins p t st) = Threw e0 ->
             e0 = provisioning_error).
  { intros pt ts ins p t st e0 H0.
    destruct (addColumnsAndRows_cases C pt ts ins p t st);
      cbn [result_of fst] in H0; congruence. }
  pose proof (Hfixed _ _ _ _ _ _ _ Hres) as ->.
  split; [reflexivity|]. split.
  - destruct (addColumnsAndRows_cases C pageTitle titles indicators payload title s)
      as [cause Hrows|rows0 cause s1 Hrows Hid|rows0 id0 s1 cause s2 Hrows Hid Hrs
          |rows0 id0 s1 u s2 Hrows Hid Hrs];
      cbn [result_of fst] in Hres; try discriminate Hres; cbn [trace_of snd].
    + exists cause, [Enter FaddColumnsAndRows]. repeat split. now left.
    + exists cause, [Enter FaddColumnsAndRows;
                     Ext (CgetTabIdFromTitle title) (Some cause)].
      repeat split. right. left. cbn. tauto.
    + exists cause, [Enter FaddColumnsAndRows;
                     Ext (CgetTabIdFromTitle title) None;
                     Ext (CaddColumnsAndRowsToTabId
                            id0 (numberOfColumnsNeeded titles indicators) rows0)
                         (Some cause)].
      repeat split. right. right. exists id0, rows0. cbn. tauto.
  - intros pt ts ins p t st e0 H0. apply (Hfixed _ _ _ _ _ _ _ H0).
Qed.

(** C10. [sendSummaryBody] does not depend on its second argument: for
    any two values of it, the result, the final store and the trace are
    the same, and the one request issued is built from the payload
    alone. *)
Theorem C10_body_write_ignores_second_argument
    (payload : list Request) (title1 title2 : string) (s : Store World) :
  sendSummaryBody auth spreadsheetId C payload title1 s
    = sendSummaryBody auth spreadsheetId C payload title2 s /\
  count is_write_call
    (trace_of (sendSummaryBody auth spreadsheetId C payload title1 s)) = 1%nat /\
  In (Ext (CbatchUpdate (body_params auth spreadsheetId payload) false)
          (thrown_of (fst (batchUpdate C (body_params auth spreadsheetId payload) s))))
     (trace_of (sendSummaryBody auth spreadsheetId C payload title1 s)).
Proof.
  rewrite !sendSummaryBody_run. cbv zeta. cbn [trace_of snd].
  split; [reflexivity|].
  destruct (batchUpdate C _ s) as [[u|e] s1]; cbn; split; auto.
Qed.

Lemma inputs_only s :
  Forall (fun e : Ev => is_input_call e = true) (trace_of (gather_inputs C s)).
Proof. apply gather_inputs_trace. Qed.

(** The trace of a run of [addColumnsAndRows] that threw: nothing is
    written, and the exit mark carries the fixed error. *)
Lemma provisioning_throw_trace pageTitle titles indicators payload title s e s2 t2 :
  addColumnsAndRows C pageTitle titles indicators payload title s = (Threw e, s2, t2) ->
  e = provisioning_error /\
  In (Exit FaddColumnsAndRows (Some provisioning_error)) t2 /\
  Forall (fun e : Ev => is_provisioning_event e = true) t2.
Proof.
  intros Hrun.
  pose proof (addColumnsAndRows_cases C pageTitle titles indicators payload title s)
    as Hcases.
  rewrite Hrun in Hcases.
  split; [|split].
  - inversion Hcases; reflexivity.
  - inversion Hcases; subst; cbn; tauto.
  - apply (provisioning_trace C _ _ _ _ _ Hcases).
Qed.

(** The trace of a run of [addColumnsAndRows] that returned. *)
Lemma provisioning_done_trace pageTitle titles indicators payload title s u s2 t2 :
  addColumnsAndRows C pageTitle titles indicators payload title s
    = (Returned u, s2, t2) ->
  exists id rows,
    t2 = [Enter FaddColumnsAndRows;
          Ext (CgetTabIdFromTitle title) None;
          Ext (CaddColumnsAndRowsToTabId
                 id (numberOfColumnsNeeded titles indicators) rows) None;
          Exit FaddColumnsAndRows None].
Proof.
  intros Hrun.
  pose proof (addColumnsAndRows_cases C pageTitle titles indicators payload title s)
    as Hcases.
  rewrite Hrun in Hcases. inversion Hcases; subst. now eexists _, _.
Qed.

(** C1. In every run of [handleSummary] in which provisioning fails (the
    title lookup rejects, the resize request rejects, or
    [addColumnsAndRows] leaves by a throw), the error thrown by
    [addColumnsAndRows] is the result of [handleSummary], and neither
    [sendSummaryHeaders], [sendSummaryBody] nor [summaryHeaderStyling] is
    invoked, nor is any request made to the Sheets client. *)
Theorem C1_provisioning_failure_aborts_before_writes (s : Store World) (ev : Ev) :
  let run := handleSummary auth spreadsheetId HEADER_INDICATORS C s in
  In ev (trace_of run) ->
  is_provisioning_failure ev = true ->
  result_of run = Threw provisioning_error /\
  In (Exit FaddColumnsAndRows (Some provisioning_error)) (trace_of run) /\
  count (is_enter FsendSummaryHeaders) (trace_of run) = 0%nat /\
  count (is_enter FsendSummaryBody) (trace_of run) = 0%nat /\
  count (is_enter FsummaryHeaderStyling) (trace_of run) = 0%nat /\
  count is_write_call (trace_of run) = 0%nat.
Proof.
  intros run Hin Hfail. subst run.
  destruct (handleSummary_cases auth spreadsheetId HEADER_INDICATORS C s)
    as [e s1 t1 Hinp|titles title ref s1 t1 e s2 t2 Hinp Hprov
        |titles title ref s1 t1 s2 t2 Hinp Hprov];
    pose proof (inputs_only s) as Ht1; rewrite Hinp in Ht1;
    cbn [trace_of result_of fst snd] in *.
  - exfalso. revert Ht1 Hin Hfail. apply not_in_excluded. classify.
  - destruct (provisioning_throw_trace _ _ _ _ _ _ _ _ _ Hprov) as (-> & Hexit & Ht2).
    split; [reflexivity|]. split; [apply in_or_app; now right|].
    rewrite !count_app.
    repeat split;
      (rewrite (count_excluded _ is_input_call t1), (count_excluded _ is_provisioning_event t2);
       [reflexivity|classify|assumption|classify|assumption]).
  - exfalso.
    destruct (provisioning_done_trace _ _ _ _ _ _ _ _ _ Hprov) as (id & rows & ->).
    apply in_app_or in Hin. destruct Hin as [Hin|Hin].
    { revert Ht1 Hin Hfail. apply not_in_excluded. classify. }
    apply in_app_or in Hin. destruct Hin as [Hin|Hin].
    { cbn [In] in Hin.
      repeat (destruct Hin as [<-|Hin]; [discriminate Hfail|]). contradiction. }
    pose proof (write_phase_trace auth spreadsheetId C title ref s2) as Ht3.
    revert Ht3 Hin Hfail. apply not_in_excluded. classify.
Qed.

(** C2, as the code has it. Each write step catches the failure of its
    own request, hands it to [console.error] under a fixed label (the
    same label for the header and styling steps, the spreadsheet id for
    the body step) and returns.  So a failure does not abort the sequence:
    in every run of [handleSummary] in which the header request fails,
    [sendSummaryBody] is invoked exactly once and issues exactly one
    request; in every run in which any of the three requests fails, each
    of the three steps is still invoked exactly once, issues its one
    request, in the fixed order, and the run returns; and every run in
    which provisioning returned ends without a throw. *)
Theorem C2_write_steps_are_isolated :
  (forall payload s,
     let run := sendSummaryHeaders auth spreadsheetId C payload s in
     result_of run = Returned tt /\
     forall e,
       fst (values_batchUpdate C (header_params auth spreadsheetId payload) s) = Threw e ->
       In (ConsoleError [LStr "An error occurred:"; LErr e]) (trace_of run)) /\
  (forall payload title s,
     let run := sendSummaryBody auth spreadsheetId C payload title s in
     result_of run = Returned tt /\
     forall e,
       fst (batchUpdate C (body_params auth spreadsheetId payload) s) = Threw e ->
       In (ConsoleError [LStr ("Error writing to project: " ++ spreadsheetId); LErr e])
          (trace_of run)) /\
  (forall payload s,
     let run := summaryHeaderStyling auth spreadsheetId C payload s in
     result_of run = Returned tt /\
     forall e,
       fst (batchUpdate C (style_params auth spreadsheetId payload) s) = Threw e ->
       In (ConsoleError [LStr "An error occurred:"; LErr e]) (trace_of run)) /\
  (forall s ev,
     let run := handleSummary auth spreadsheetId HEADER_INDICATORS C s in
     In ev (trace_of run) ->
     is_failed_header_write ev = true ->
     count (is_enter FsendSummaryBody) (trace_of run) = 1%nat /\
     count is_body_write (trace_of run) = 1%nat) /\
  (forall s,
     let run := handleSummary auth spreadsheetId HEADER_INDICATORS C s in
     In (Exit FaddColumnsAndRows None) (trace_of run) ->
     result_of run = Returned tt) /\
  (forall s ev,
     let run := handleSummary auth spreadsheetId HEADER_INDICATORS C s in
     In ev (trace_of run) ->
     is_failed_write ev = true ->
     count (is_enter FsendSummaryHeaders) (trace_of run) = 1%nat /\
     count (is_enter FsendSummaryBody) (trace_of run) = 1%nat /\
     count (is_enter FsummaryHeaderStyling) (trace_of run) = 1%nat /\
     count is_header_write (trace_of run) = 1%nat /\
     count is_body_write (trace_of run) = 1%nat /\
     count is_style_write (trace_of run) = 1%nat /\
     writes_in_order auth spreadsheetId (trace_of run) /\
     result_of run = Returned tt).
Proof.
  split; [|split; [|split; [|split; [|split]]]].
  - intros payload s run. subst run. rewrite sendSummaryHeaders_run. cbv zeta.
    split; [reflexivity|]. intros e ->. cbn. tauto.
  - intros payload title s run. subst run. rewrite sendSummaryBody_run. cbv zeta.
    split; [reflexivity|]. intros e ->. cbn. tauto.
  - intros payload s run. subst run. rewrite summaryHeaderStyling_run. cbv zeta.
    split; [reflexivity|]. intros e ->. cbn. tauto.
  - intros s ev run Hin Hfail. subst run.
    destruct (handleSummary_cases auth spreadsheetId HEADER_INDICATORS C s)
      as [e s1 t1 Hinp|titles title ref s1 t1 e s2 t2 Hinp Hprov
          |titles title ref s1 t1 s2 t2 Hinp Hprov];
      pose proof (inputs_only s) as Ht1; rewrite Hinp in Ht1;
      cbn [trace_of result_of fst snd] in *.
    + exfalso. revert Ht1 Hin Hfail. apply not_in_excluded. classify.
    + exfalso.
      destruct (provisioning_throw_trace _ _ _ _ _ _ _ _ _ Hprov) as (_ & _ & Ht2).
      apply in_app_or in Hin. destruct Hin as [Hin|Hin].
      * revert Ht1 Hin Hfail. apply not_in_excluded. classify.
      * revert Ht2 Hin Hfail. apply not_in_excluded. classify.
    + destruct (provisioning_done_trace _ _ _ _ _ _ _ _ _ Hprov) as (id & rows & ->).
      destruct (write_phase_shape auth spreadsheetId C title ref s2)
        as (header & body & style & rh & rb & rs & -> & _).
      rewrite !count_app.
      rewrite !(count_excluded _ is_input_call t1) by (assumption || classify).
      destruct rh, rb, rs; split; reflexivity.
  - intros s run Hin. subst run.
    destruct (handleSummary_cases auth spreadsheetId HEADER_INDICATORS C s)
      as [e s1 t1 Hinp|titles title ref s1 t1 e s2 t2 Hinp Hprov
          |titles title ref s1 t1 s2 t2 Hinp Hprov];
      pose proof (inputs_only s) as Ht1; rewrite Hinp in Ht1;
      cbn [trace_of result_of fst snd] in *.
    + exfalso. rewrite Forall_forall in Ht1. specialize (Ht1 _ Hin). discriminate Ht1.
    + exfalso.
      pose proof (addColumnsAndRows_cases C title titles HEADER_INDICATORS
                    (bodyPayload (heap s1 ref)) title s1) as Hcases.
      rewrite Hprov in Hcases.
      apply in_app_or in Hin. destruct Hin as [Hin|Hin].
      * rewrite Forall_forall in Ht1. specialize (Ht1 _ Hin). discriminate Ht1.
      * inversion Hcases; subst; cbn [In] in Hin;
          repeat (destruct Hin as [Hin|Hin]; [discriminate Hin|]); contradiction.
    + reflexivity.
  - intros s ev run Hin Hfail. subst run.
    destruct (handleSummary_cases auth spreadsheetId HEADER_INDICATORS C s)
      as [e s1 t1 Hinp|titles title ref s1 t1 e s2 t2 Hinp Hprov
          |titles title ref s1 t1 s2 t2 Hinp Hprov];
      pose proof (inputs_only s) as Ht1; rewrite Hinp in Ht1;
      cbn [trace_of result_of fst snd] in *.
    + exfalso. revert Ht1 Hin Hfail. apply not_in_excluded. classify.
    + exfalso.
      destruct (provisioning_throw_trace _ _ _ _ _ _ _ _ _ Hprov) as (_ & _ & Ht2).
      apply in_app_or in Hin. destruct Hin as [Hin|Hin].
      * revert Ht1 Hin Hfail. apply not_in_excluded. classify.
      * revert Ht2 Hin Hfail. apply not_in_excluded. classify.
    + destruct (provisioning_done_trace _ _ _ _ _ _ _ _ _ Hprov) as (id & rows & ->).
      destruct (write_phase_shape auth spreadsheetId C title ref s2)
        as (header & body & style & rh & rb & rs & -> & _).
      assert (Horder :
                writes_in_order auth spreadsheetId
                  (t1 ++
                   [Enter FaddColumnsAndRows; Ext (CgetTabIdFromTitle title) None;
                    Ext (CaddColumnsAndRowsToTabId id
                           (numberOfColumnsNeeded titles HEADER_INDICATORS) rows) None;
                    Exit FaddColumnsAndRows None] ++
                   [Enter FsendSummaryHeaders;
                    Ext (Cvalues_batchUpdate (header_params auth spreadsheetId header)) rh]
                   ++ caught "An error occurred:" rh
                   ++ [Exit FsendSummaryHeaders None;
                       Enter FsendSummaryBody;
                       Ext (CbatchUpdate (body_params auth spreadsheetId body) false) rb]
                   ++ caught ("Error writing to project: " ++ spreadsheetId) rb
                   ++ [Exit FsendSummaryBody None;
                       Enter FsummaryHeaderStyling;
                       Ext (CbatchUpdate (style_params auth spreadsheetId style) false) rs]
                   ++ caught "An error occurred:" rs
                   ++ [Exit FsummaryHeaderStyling None])).
      { unfold writes_in_order.
        eexists (t1 ++ _), header, body, style, rh, rb, rs.
        split; [rewrite <- app_assoc; reflexivity|].
        rewrite !count_app.
        rewrite !(count_excluded _ is_input_call t1) by (assumption || classify).
        split; reflexivity. }
      rewrite !count_app.
      rewrite !(count_excluded _ is_input_call t1) by (assumption || classify).
      destruct rh, rb, rs; repeat split; try reflexivity; exact Horder.
Qed.

(** C3. In every run of [handleSummary] in which provisioning returned,
    the trace ends with the header step, then the body step, then the
    styling step: each step is entered, issues its one request
    ([values.batchUpdate], then [batchUpdate] with the body, then
    [batchUpdate] with the header style), and returns before the next
    step is entered; nothing before them enters a write step or calls the
    Sheets client. *)
Theorem C3_writes_in_fixed_order (s : Store World) :
  let run := handleSummary auth spreadsheetId HEADER_INDICATORS C s in
  In (Exit FaddColumnsAndRows None) (trace_of run) ->
  writes_in_order auth spreadsheetId (trace_of run).
Proof.
  intros run Hin. subst run.
  destruct (handleSummary_cases auth spreadsheetId HEADER_INDICATORS C s)
    as [e s1 t1 Hinp|titles title ref s1 t1 e s2 t2 Hinp Hprov
        |titles title ref s1 t1 s2 t2 Hinp Hprov];
    pose proof (inputs_only s) as Ht1; rewrite Hinp in Ht1;
    cbn [trace_of result_of fst snd] in *.
  - exfalso. rewrite Forall_forall in Ht1. specialize (Ht1 _ Hin). discriminate Ht1.
  - exfalso.
    pose proof (addColumnsAndRows_cases C title titles HEADER_INDICATORS
                  (bodyPayload (heap s1 ref)) title s1) as Hcases.
    rewrite Hprov in Hcases.
    apply in_app_or in Hin. destruct Hin as [Hin|Hin].
    + rewrite Forall_forall in Ht1. specialize (Ht1 _ Hin). discriminate Ht1.
    + inversion Hcases; subst; cbn [In] in Hin;
        repeat (destruct Hin as [Hin|Hin]; [discriminate Hin|]); contradiction.
  - destruct (provisioning_done_trace _ _ _ _ _ _ _ _ _ Hprov) as (id & rows & ->).
    destruct (write_phase_shape auth spreadsheetId C title ref s2)
      as (header & body & style & rh & rb & rs & -> & _).
    unfold writes_in_order.
    eexists (t1 ++ _), header, body, style, rh, rb, rs.
    split; [rewrite <- app_assoc; reflexivity|].
    rewrite !count_app.
    rewrite !(count_excluded _ is_input_call t1) by (assumption || classify).
    split; reflexivity.
Qed.

(** C7. No run of [handleSummary] invokes [sendSummaryGrid] or makes the
    callback-style request that only [sendSummaryGrid] makes, whatever
    the inputs and whichever calls fail; the function is nevertheless
    there: run on its own it issues that request and returns. *)
Theorem C7_grid_step_never_invoked :
  (forall s,
     let run := handleSummary auth spreadsheetId HEADER_INDICATORS C s in
     count (is_enter FsendSummaryGrid) (trace_of run) = 0%nat /\
     count is_callback_call (trace_of run) = 0%nat) /\
  (forall payload s,
     let run := sendSummaryGrid auth spreadsheetId C payload s in
     result_of run = Returned tt /\
     count (is_enter FsendSummaryGrid) (trace_of run) = 1%nat /\
     count is_callback_call (trace_of run) = 1%nat /\
     exists r,
       In (Ext (CbatchUpdate (grid_params auth spreadsheetId payload) true) r)
          (trace_of run)).
Proof.
  split.
  - intros s run. subst run.
    destruct (handleSummary_cases auth spreadsheetId HEADER_INDICATORS C s)
      as [e s1 t1 Hinp|titles title ref s1 t1 e s2 t2 Hinp Hprov
          |titles title ref s1 t1 s2 t2 Hinp Hprov];
      pose proof (inputs_only s) as Ht1; rewrite Hinp in Ht1;
      cbn [trace_of result_of fst snd] in *.
    + rewrite !(count_excluded _ is_input_call t1) by (assumption || classify).
      now split.
    + destruct (provisioning_throw_trace _ _ _ _ _ _ _ _ _ Hprov) as (_ & _ & Ht2).
      rewrite !count_app.
      rewrite !(count_excluded _ is_input_call t1) by (assumption || classify).
      rewrite !(count_excluded _ is_provisioning_event t2) by (assumption || classify).
      now split.
    + destruct (provisioning_done_trace _ _ _ _ _ _ _ _ _ Hprov) as (id & rows & ->).
      pose proof (write_phase_trace auth spreadsheetId C title ref s2) as Ht3.
      rewrite !count_app.
      rewrite !(count_excluded _ is_input_call t1) by (assumption || classify).
      rewrite !(count_excluded _ is_write_phase_event (trace_of _))
        by (assumption || classify).
      now split.
  - intros payload s run. subst run.
    unfold sendSummaryGrid, traced, try_catch, bind, extern, console_error, emit, ret.
    fold (grid_params auth spreadsheetId payload).
    destruct (batchUpdate_cb C _ s) as [[[]|e] s1];
      cbn; repeat split; eauto.
Qed.


End Claims.

(* ===================================================================== *)
(** ** The properties at work on the small world *)
(* ===================================================================== *)

Module Examples.

Import Scenario.

Local Abbreviation Ev := (event unit Z).

(** A run whose title lookup rejects: nothing is written. *)
Lemma C1_witness :
  In (Ext (CgetTabIdFromTitle "Summary") (Some (Foreign "tab not found")) : Ev)
     (trace_of (run payload_B lookup_down)) /\
  result_of (run payload_B lookup_down) = Threw provisioning_error /\
  In (Exit FaddColumnsAndRows (Some provisioning_error) : Ev)
     (trace_of (run payload_B lookup_down)) /\
  count (is_enter FsendSummaryHeaders) (trace_of (run payload_B lookup_down)) = 0%nat /\
  count (is_enter FsendSummaryBody) (trace_of (run payload_B lookup_down)) = 0%nat /\
  count (is_enter FsummaryHeaderStyling) (trace_of (run payload_B lookup_down)) = 0%nat /\
  count is_write_call (trace_of (run payload_B lookup_down)) = 0%nat.
Proof.
  split; [cbn; tauto|].
  apply (C1_provisioning_failure_aborts_before_writes
           tt "sheet-1" indicators (collaborators payload_B lookup_down) s0
           (Ext (CgetTabIdFromTitle "Summary") (Some (Foreign "tab not found")))).
  - cbn. tauto.
  - reflexivity.
Defined.

(** A run whose header request rejects still writes body and style, in
    order. *)
Lemma C3_witness :
  In (Exit FaddColumnsAndRows None : Ev) (trace_of (run payload_B header_down)) /\
  writes_in_order tt "sheet-1" (trace_of (run payload_B header_down)).
Proof.
  split; [cbn; tauto|].
  apply (C3_writes_in_fixed_order
           tt "sheet-1" indicators (collaborators payload_B header_down) s0).
  cbn. tauto.
Defined.

Lemma payload_B_rows_have_end_rows :
  forall item, In item (bodyPayload payload_B) -> exists z, entry_end_row item z.
Proof.
  intros item Hin. cbn in Hin.
  destruct Hin as [<-|[<-|[<-|[]]]]; eexists; eexists _, _; repeat split.
Defined.

(** Scenario B: end rows 5, 12 and 8 give 12 rows. *)
Lemma C4_witness :
  bodyPayload payload_B <> [] /\
  (forall item, In item (bodyPayload payload_B) -> exists z, entry_end_row item z) /\
  (N.of_nat (length (bodyPayload payload_B)) <= 130000)%N /\
  numberOfRowsNeeded 130000 (bodyPayload payload_B) = Returned (Num 12) /\
  (exists item, In item (bodyPayload payload_B) /\ entry_end_row item 12) /\
  (forall item z,
     In item (bodyPayload payload_B) -> entry_end_row item z -> (z <= 12)%Z) /\
  (forall payload',
     Permutation (bodyPayload payload_B) payload' ->
     numberOfRowsNeeded 130000 payload' = Returned (Num 12)) /\
  (forall pageTitle titles indicators title s id columns rows r,
     In (Ext (CaddColumnsAndRowsToTabId id columns rows) r)
        (trace_of (addColumnsAndRows (collaborators payload_B no_fault)
                     pageTitle titles indicators (bodyPayload payload_B) title s)) ->
     rows = Num 12).
Proof.
  assert (Hne : bodyPayload payload_B <> []) by discriminate.
  assert (Hlen : (N.of_nat (length (bodyPayload payload_B)) <= 130000)%N)
    by (cbn; lia).
  split; [exact Hne|]. split; [exact payload_B_rows_have_end_rows|].
  split; [exact Hlen|].
  destruct (proj1 (C4_rows_is_max_end_row (collaborators payload_B no_fault)
                     (bodyPayload payload_B) Hne payload_B_rows_have_end_rows) Hlen)
    as (m & Hm & Hrest).
  assert (Hm12 : m = 12%Z) by (vm_compute in Hm; congruence).
  subst m. split; [exact Hm|exact Hrest].
Defined.

(** C4 does not hold for every non-empty payload: with one entry more
    than the engine spreads, all of them with end row 5, there is no row
    count; the spread throws, no resize request goes out and
    [addColumnsAndRows] throws. *)
Lemma C4_counterexample :
  long_payload <> [] /\
  (forall item, In item long_payload -> entry_end_row item 5) /\
  numberOfRowsNeeded 130000 long_payload = Threw RangeError /\
  result_of (addColumnsAndRows (collaborators payload_B no_fault)
               "Summary" ["Jan-1"; "Jan-2"] indicators long_payload "Summary" s0)
    = Threw provisioning_error /\
  count is_resize_call
    (trace_of (addColumnsAndRows (collaborators payload_B no_fault)
                 "Summary" ["Jan-1"; "Jan-2"] indicators long_payload "Summary" s0))
    = 0%nat.
Proof.
  assert (Hwf : forall item, In item long_payload -> entry_end_row item 5).
  { intros item Hin. apply repeat_spec in Hin. subst item.
    eexists _, _. repeat split. }
  assert (Hthrow : numberOfRowsNeeded (max_arguments (collaborators payload_B no_fault))
                     long_payload = Threw RangeError).
  { apply rows_beyond_limit.
    - intros item Hin. exists 5%Z. now apply Hwf.
    - unfold long_payload. rewrite repeat_length, N2Nat.id. reflexivity. }
  split.
  { intros Hnil. apply (f_equal (@length Request)) in Hnil.
    unfold long_payload in Hnil. rewrite repeat_length in Hnil. cbn [length] in Hnil. lia. }
  split; [exact Hwf|]. split; [exact Hthrow|].
  destruct (addColumnsAndRows_cases (collaborators payload_B no_fault)
              "Summary" ["Jan-1"; "Jan-2"] indicators long_payload "Summary" s0);
    try congruence.
  now split.
Qed.



(** A failing lookup surfaces as the fixed error. *)
Lemma C9_witness :
  result_of (addColumnsAndRows (collaborators payload_B lookup_down)
               "Summary" ["Jan-1"; "Jan-2"] indicators (bodyPayload payload_B)
               "Summary" s0)
    = Threw provisioning_error /\
  provisioning_error = Error_ "Unable to add columns and rows to the sheet." /\
  (exists cause (before : list Ev),
     trace_of (addColumnsAndRows (collaborators payload_B lookup_down)
                 "Summary" ["Jan-1"; "Jan-2"] indicators (bodyPayload payload_B)
                 "Summary" s0) =
       before ++ [ConsoleError [LStr "Error in adding columns and rows:"; LErr cause];
                  Exit FaddColumnsAndRows (Some provisioning_error)] /\
     count is_console before = 0%nat /\
     (numberOfRowsNeeded 130000 (bodyPayload payload_B) = Threw cause \/
      In (Ext (CgetTabIdFromTitle "Summary") (Some cause)) before \/
      exists id rows,
        In (Ext (CaddColumnsAndRowsToTabId
                   id (numberOfColumnsNeeded ["Jan-1"; "Jan-2"] indicators) rows)
                (Some cause))
           before)) /\
  (forall pageTitle' titles' indicators' payload' title' s' e',
     result_of (addColumnsAndRows (collaborators payload_B lookup_down)
                  pageTitle' titles' indicators' payload' title' s')
       = Threw e' ->
     e' = provisioning_error).
Proof.
  split; [reflexivity|].
  apply (C9_single_fixed_error (collaborators payload_B lookup_down)
           "Summary" ["Jan-1"; "Jan-2"] indicators (bodyPayload payload_B)
           "Summary" s0 provisioning_error).
  reflexivity.
Defined.

(** C6 does not hold as stated: with an empty body payload and every
    call succeeding, planning raises nothing, the resize request is
    issued with [-Infinity] rows, and the run goes on to the writes and
    returns. *)
Lemma C6_counterexample :
  bodyPayload empty_payload = [] /\
  result_of (addColumnsAndRows (collaborators empty_payload no_fault)
               "Summary" ["Jan-1"; "Jan-2"] indicators (bodyPayload empty_payload)
               "Summary" s0) = Returned tt /\
  In (Ext (CaddColumnsAndRowsToTabId 7%Z 4%Z NegInfinity) None : Ev)
     (trace_of (run empty_payload no_fault)) /\
  count is_write_call (trace_of (run empty_payload no_fault)) = 3%nat /\
  result_of (run empty_payload no_fault) = Returned tt.
Proof. repeat split; cbn; tauto. Qed.

(** C2 does not hold as stated: what is logged need not tell which step
    failed, nor on which tab.  A run in which only the header request
    fails and a run in which only the styling request fails print the
    same thing. *)
Lemma C2_counterexample :
  count is_failed_header_write (trace_of (run payload_B header_down)) = 1%nat /\
  count is_failed_style_write (trace_of (run payload_B header_down)) = 0%nat /\
  count is_failed_header_write (trace_of (run payload_B style_down)) = 0%nat /\
  count is_failed_style_write (trace_of (run payload_B style_down)) = 1%nat /\
  filter is_console (trace_of (run payload_B header_down))
    = [ConsoleError [LStr "An error occurred:"; LErr (Foreign "ECONNRESET")]] /\
  filter is_console (trace_of (run payload_B style_down))
    = [ConsoleError [LStr "An error occurred:"; LErr (Foreign "ECONNRESET")]].
Proof. repeat split. Qed.

(** A run whose header request rejects: the body step still runs once
    and the run returns.  A run whose body request rejects: all three
    steps still run once each, in order, and the run returns. *)
Lemma C2_witness :
  In (Ext (Cvalues_batchUpdate (header_params tt "sheet-1" (headerPayload payload_B)))
          (Some (Foreign "ECONNRESET")) : Ev)
     (trace_of (run payload_B header_down)) /\
  count (is_enter FsendSummaryBody) (trace_of (run payload_B header_down)) = 1%nat /\
  count is_body_write (trace_of (run payload_B header_down)) = 1%nat /\
  result_of (run payload_B header_down) = Returned tt /\
  In (Ext (CbatchUpdate (body_params tt "sheet-1" (bodyPayload payload_B)) false)
          (Some (Foreign "ECONNRESET")) : Ev)
     (trace_of (run payload_B body_down)) /\
  count (is_enter FsendSummaryHeaders) (trace_of (run payload_B body_down)) = 1%nat /\
  count (is_enter FsendSummaryBody) (trace_of (run payload_B body_down)) = 1%nat /\
  count (is_enter FsummaryHeaderStyling) (trace_of (run payload_B body_down)) = 1%nat /\
  count is_header_write (trace_of (run payload_B body_down)) = 1%nat /\
  count is_body_write (trace_of (run payload_B body_down)) = 1%nat /\
  count is_style_write (trace_of (run payload_B body_down)) = 1%nat /\
  writes_in_order tt "sheet-1" (trace_of (run payload_B body_down)) /\
  result_of (run payload_B body_down) = Returned tt.
Proof.
  destruct (C2_write_steps_are_isolated
              tt "sheet-1" indicators (collaborators payload_B header_down))
    as (_ & _ & _ & Hbody & Hdone & _).
  destruct (C2_write_steps_are_isolated
              tt "sheet-1" indicators (collaborators payload_B body_down))
    as (_ & _ & _ & _ & _ & Hany).
  assert (Hin : In (Ext (Cvalues_batchUpdate
                           (header_params tt "sheet-1" (headerPayload payload_B)))
                        (Some (Foreign "ECONNRESET")) : Ev)
                   (trace_of (run payload_B header_down)))
    by (cbn; tauto).
  assert (Hin' : In (Ext (CbatchUpdate
                            (body_params tt "sheet-1" (bodyPayload payload_B)) false)
                         (Some (Foreign "ECONNRESET")) : Ev)
                    (trace_of (run payload_B body_down)))
    by (cbn; tauto).
  split; [exact Hin|].
  destruct (Hbody s0 _ Hin eq_refl) as [Hentered Hrequest].
  split; [exact Hentered|]. split; [exact Hrequest|].
  split; [apply Hdone; cbn; tauto|].
  split; [exact Hin'|].
  exact (Hany s0 _ Hin' eq_refl).
Defined.

(** With an empty payload and a lookup that returns tab 7, the resize
    request goes out for 4 columns and [-Infinity] rows. *)
Lemma C6_witness :
  getTabIdFromTitle (collaborators empty_payload no_fault) "Summary" s0
    = (Returned 7%Z, s0) /\
  In (Ext (CaddColumnsAndRowsToTabId 7%Z 4%Z NegInfinity) None : Ev)
     (trace_of (addColumnsAndRows (collaborators empty_payload no_fault)
                  "Summary" ["Jan-1"; "Jan-2"] indicators [] "Summary" s0)) /\
  result_of (addColumnsAndRows (collaborators empty_payload no_fault)
               "Summary" ["Jan-1"; "Jan-2"] indicators [] "Summary" s0)
    = Returned tt.
Proof.
  split; [reflexivity|].
  destruct (C6_empty_payload_still_provisions
              (collaborators empty_payload no_fault)
              "Summary" ["Jan-1"; "Jan-2"] indicators "Summary" s0)
    as (_ & _ & Hresize).
  exact (Hresize 7%Z s0 eq_refl).
Defined.

(** Scenario A of the specification. *)
Example scenario_A_columns :
  numberOfColumnsNeeded ["Jan-1"; "Jan-2"] ["Hours"; "Cost"] = 4%Z.
Proof. reflexivity. Qed.

(** Scenario B of the specification. *)
Example scenario_B_rows :
  numberOfRowsNeeded 130000 (bodyPayload payload_B) = Returned (Num 12).
Proof. reflexivity. Qed.

(** Scenario D of the specification: the header request rejects, the
    other two resolve; the run returns and one error is logged. *)
Example scenario_D_one_error_logged :
  result_of (run payload_B header_down) = Returned tt /\
  count is_console (trace_of (run payload_B header_down)) = 1%nat /\
  count is_write_call (trace_of (run payload_B header_down)) = 3%nat.
Proof. repeat split. Qed.

(** An entry without [endRowIndex] makes the row count [NaN]. *)
Example missing_end_row_gives_NaN :
  numberOfRowsNeeded 130000
    [to_row 5;
     ReqCopyPaste
       {| source := None;
          destination :=
            Some {| sheetId := Some 7%Z; startRowIndex := Some 0%Z; endRowIndex := None;
                    startColumnIndex := None; endColumnIndex := None |};
          pasteType := "PASTE_NORMAL" |};
     to_row 8]
    = Returned NaN.
Proof. reflexivity. Qed.

(** An entry that is not a copy-paste request makes the row computation
    throw; the lookup is never called and the caller sees the fixed
    error. *)
Example foreign_entry_fails_planning :
  addColumnsAndRows (collaborators payload_B no_fault)
    "Summary" ["Jan-1"; "Jan-2"] indicators [to_row 5; merge_header] "Summary" s0
  = (Threw provisioning_error, s0,
     [Enter FaddColumnsAndRows;
      ConsoleError [LStr "Error in adding columns and rows:";
                    LErr (TypeError "destination")];
      Exit FaddColumnsAndRows (Some provisioning_error)]).
Proof. reflexivity. Qed.

End Examples.

(* ===================================================================== *)
(** ** More on the row count *)
(* ===================================================================== *)

Section RowCount.

Lemma max_step_comm (a b : jsnum) : max_step a b = max_step b a.
Proof. destruct a, b; cbn; try reflexivity. now rewrite Z.max_comm. Qed.

Lemma max_step_assoc (a b c : jsnum) :
  max_step (max_step a b) c = max_step a (max_step b c).
Proof. destruct a, b, c; cbn; try reflexivity. now rewrite Z.max_assoc. Qed.

Lemma fold_max_step_from (l : list jsnum) (a : jsnum) :
  fold_left max_step l a = max_step a (fold_left max_step l NegInfinity).
Proof.
  revert a. induction l as [|x l IH]; intros a; cbn [fold_left].
  - now destruct a.
  - rewrite (IH (max_step a x)), (IH (max_step NegInfinity x)).
    rewrite max_step_assoc. f_equal. now destruct x.
Qed.

Lemma Math_max_app (l1 l2 : list jsnum) :
  Math_max (l1 ++ l2) = max_step (Math_max l1) (Math_max l2).
Proof. unfold Math_max. rewrite fold_left_app. apply fold_max_step_from. Qed.

Lemma fold_max_step_perm (l l' : list jsnum) :
  Permutation l l' -> forall a, fold_left max_step l a = fold_left max_step l' a.
Proof.
  induction 1 as [|x l l' _ IH|x y l|l l' l'' _ IH1 _ IH2]; intros a; cbn [fold_left].
  - reflexivity.
  - apply IH.
  - f_equal. rewrite !max_step_assoc. f_equal. apply max_step_comm.
  - now rewrite IH1.
Qed.



Lemma array_map_app {A B} (f : A -> outcome B) (p q : list A) :
  array_map f (p ++ q) =
    match array_map f p with
    | Threw e => Threw e
    | Returned a =>
        match array_map f q with
        | Threw e => Threw e
        | Returned b => Returned (a ++ b)
        end
    end.
Proof.
  induction p as [|x p IH]; cbn [app array_map].
  - now destruct (array_map f q).
  - destruct (f x) as [y|e]; [|reflexivity]. rewrite IH.
    destruct (array_map f p) as [a|e]; [|reflexivity].
    now destruct (array_map f q).
Qed.


Lemma array_map_perm {A B} (f : A -> outcome B) (p p' : list A) :
  Permutation p p' ->
  forall rows,
    array_map f p = Returned rows ->
    exists rows', array_map f p' = Returned rows' /\ Permutation rows rows'.
Proof.
  induction 1 as [|x p p' _ IH|x y p|p p' p'' _ IH1 _ IH2]; intros rows Hmap.
  - exists rows. split; [exact Hmap|apply Permutation_refl].
  - cbn [array_map] in Hmap |- *.
    destruct (f x) as [v|e]; [|discriminate].
    destruct (array_map f p) as [vs|e]; [|discriminate].
    injection Hmap as <-. destruct (IH vs eq_refl) as (vs' & -> & Hperm).
    exists (v :: vs'). split; [reflexivity|now constructor].
  - cbn [array_map] in Hmap |- *.
    destruct (f y) as [v|e]; [|discriminate].
    destruct (f x) as [w|e]; [|discriminate].
    destruct (array_map f p) as [vs|e]; [|discriminate].
    injection Hmap as <-. exists (w :: v :: vs). split; [reflexivity|constructor].
  - destruct (IH1 rows Hmap) as (rows' & Hmap' & Hperm').
    destruct (IH2 rows' Hmap') as (rows'' & Hmap'' & Hperm'').
    exists rows''. split; [exact Hmap''|].
    now apply Permutation_trans with (l' := rows').
Qed.

Lemma array_map_returns_iff (payload : list Request) :
  (exists rows, array_map item_endRowIndex payload = Returned rows) <->
  forallb has_destination payload = true.
Proof.
  induction payload as [|item payload IH]; cbn [array_map forallb].
  - split; [reflexivity|]. intros _. now exists [].
  - split.
    + intros [rows Hmap].
      destruct item as [cp| |]; cbn in Hmap |- *; try discriminate.
      destruct (destination cp); [|discriminate]. cbn.
      apply IH. destruct (array_map item_endRowIndex payload) as [ys|e];
        [now exists ys|discriminate].
    + intros Hall. apply andb_prop in Hall. destruct Hall as [Hitem Hall].
      apply IH in Hall. destruct Hall as [rows ->].
      destruct item as [cp| |]; cbn in Hitem |- *; try discriminate.
      destruct (destination cp); [|discriminate]. now eexists.
Qed.


Lemma array_map_length {A B} (f : A -> outcome B) (p : list A) (rows : list B) :
  array_map f p = Returned rows -> length rows = length p.
Proof.
  revert rows. induction p as [|x p IH]; intros rows Hmap; cbn [array_map] in Hmap.
  - now injection Hmap as <-.
  - destruct (f x) as [y|e]; [|discriminate].
    destruct (array_map f p) as [ys|e]; [|discriminate].
    injection Hmap as <-. cbn [length]. now rewrite (IH ys eq_refl).
Qed.

(** What the row computation does once [payload.map] has returned [rows]. *)
Lemma rows_after_map (limit : N) (payload : list Request) (rows : list (option Z)) :
  array_map item_endRowIndex payload = Returned rows ->
  numberOfRowsNeeded limit payload =
    if (N.of_nat (length payload) <=? limit)%N
    then Returned (Math_max (map ToNumber rows))
    else Threw RangeError.
Proof.
  intros Hmap. unfold numberOfRowsNeeded, spread_Math_max. rewrite Hmap.
  now rewrite length_map, (array_map_length _ _ _ Hmap).
Qed.

Lemma rows_returned (limit : N) (payload : list Request) (r : jsnum) :
  numberOfRowsNeeded limit payload = Returned r ->
  exists rows,
    array_map item_endRowIndex payload = Returned rows /\
    (N.of_nat (length payload) <= limit)%N /\
    r = Math_max (map ToNumber rows).
Proof.
  intros Hrows.
  destruct (array_map item_endRowIndex payload) as [rows|e] eqn:Hmap.
  - rewrite (rows_after_map limit payload rows Hmap) in Hrows.
    destruct (N.of_nat (length payload) <=? limit)%N eqn:Hlen; [|discriminate].
    exists rows. split; [reflexivity|]. split; [now apply N.leb_le|congruence].
  - unfold numberOfRowsNeeded in Hrows. rewrite Hmap in Hrows. discriminate.
Qed.

(** X1. The row computation returns exactly when [copyPaste.destination]
    can be read from every entry and the payload is no longer than the
    engine's limit on the arguments of a call: entries of another kind, or
    without a destination, make [payload.map] throw, and a longer payload
    makes the spread throw. *)
Theorem rows_return_iff_every_entry_has_destination
    (limit : N) (payload : list Request) :
  (exists rows, numberOfRowsNeeded limit payload = Returned rows) <->
  forallb has_destination payload = true /\
  (N.of_nat (length payload) <= limit)%N.
Proof.
  rewrite <- array_map_returns_iff. split.
  - intros [r Hrows]. destruct (rows_returned _ _ _ Hrows) as (rows & Hmap & Hlen & _).
    split; [now exists rows|exact Hlen].
  - intros [[rows Hmap] Hlen]. rewrite (rows_after_map limit payload rows Hmap).
    apply N.leb_le in Hlen. rewrite Hlen. now eexists.
Qed.

(** X2. When entries are malformed, the error thrown is that of the first
    one in array order, whatever follows it. *)
Theorem rows_error_is_first_offender
    (limit : N) (good rest : list Request) (bad : Request) e :
  forallb has_destination good = true ->
  item_endRowIndex bad = Threw e ->
  numberOfRowsNeeded limit (good ++ bad :: rest) = Threw e.
Proof.
  intros Hgood Hbad. apply array_map_returns_iff in Hgood. destruct Hgood as [rows Hrows].
  unfold numberOfRowsNeeded. rewrite array_map_app, Hrows.
  cbn [array_map]. now rewrite Hbad.
Qed.


(** X4. Put two payloads together for which the row computation returns.
    If the engine can still spread the whole, its row count is the larger
    of the two row counts, in the sense of [Math.max]; if the whole is
    longer than the engine's limit, the computation throws a
    [RangeError]. *)
Theorem rows_of_concatenation (limit : N) (p q : list Request) (a b : jsnum) :
  numberOfRowsNeeded limit p = Returned a ->
  numberOfRowsNeeded limit q = Returned b ->
  numberOfRowsNeeded limit (p ++ q) =
    if (N.of_nat (length (p ++ q)) <=? limit)%N
    then Returned (max_step a b)
    else Threw RangeError.
Proof.
  intros Hp Hq.
  destruct (rows_returned _ _ _ Hp) as (rp & Hmp & _ & ->).
  destruct (rows_returned _ _ _ Hq) as (rq & Hmq & _ & ->).
  rewrite (rows_after_map limit (p ++ q) (rp ++ rq))
    by (now rewrite array_map_app, Hmp, Hmq).
  now rewrite map_app, Math_max_app.
Qed.

(** X5. Whenever the row computation returns, it returns the same value for
    every reordering of the entries, entries without [endRowIndex]
    included. *)
Theorem rows_ignore_entry_order (limit : N) (p p' : list Request) (r : jsnum) :
  numberOfRowsNeeded limit p = Returned r ->
  Permutation p p' ->
  numberOfRowsNeeded limit p' = Returned r.
Proof.
  intros Hp Hperm. destruct (rows_returned _ _ _ Hp) as (rows & Hmap & Hlen & ->).
  destruct (array_map_perm _ _ _ Hperm rows Hmap) as (rows' & Hmap' & Hrows).
  rewrite (rows_after_map limit p' rows' Hmap'), <- (Permutation_length Hperm).
  apply N.leb_le in Hlen. rewrite Hlen.
  f_equal. unfold Math_max. symmetry.
  apply fold_max_step_perm. now apply Permutation_map.
Qed.

End RowCount.

(* ===================================================================== *)
(** ** More on provisioning and on the pipeline *)
(* ===================================================================== *)

Section Further.

Context {World Auth TabId : Type}.
Variable auth : Auth.
Variable spreadsheetId : string.
Variable HEADER_INDICATORS : list string.
Variable C : Collaborators World Auth TabId.

Local Abbreviation Ev := (event Auth TabId).

Lemma gather_inputs_shape s : inputs_run s (gather_inputs C s).
Proof.
  unfold gather_inputs, bind, extern, ret.
  destruct (getExistingTabTitlesInRange C s) as [[existing|e] s1].
  2:{ apply (inputs_throw s [] CgetExistingTabTitlesInRange e s1);
        [constructor|reflexivity]. }
  destruct (getLastMonthTabTitles C existing s1) as [[titles|e] s2].
  2:{ apply (inputs_throw s [Ext CgetExistingTabTitlesInRange None]
               (CgetLastMonthTabTitles existing) e s2);
        [repeat constructor|reflexivity]. }
  destruct (createSummaryTitle C s2) as [[title|e] s3].
  2:{ apply (inputs_throw s [Ext CgetExistingTabTitlesInRange None;
                             Ext (CgetLastMonthTabTitles existing) None]
               CcreateSummaryTitle e s3);
        [repeat constructor|reflexivity]. }
  destruct (createNewTab C title s3) as [[u|e] s4].
  2:{ apply (inputs_throw s [Ext CgetExistingTabTitlesInRange None;
                             Ext (CgetLastMonthTabTitles existing) None;
                             Ext CcreateSummaryTitle None]
               (CcreateNewTab title) e s4);
        [repeat constructor|reflexivity]. }
  destruct (constructPayloadForCopyPaste C titles title s4) as [[ref|e] s5].
  2:{ apply (inputs_throw s [Ext CgetExistingTabTitlesInRange None;
                             Ext (CgetLastMonthTabTitles existing) None;
                             Ext CcreateSummaryTitle None;
                             Ext (CcreateNewTab title) None]
               (CconstructPayloadForCopyPaste titles title) e s5);
        [repeat constructor|reflexivity]. }
  cbn [app]. apply inputs_done.
Qed.

(** X6. In a run of [addColumnsAndRows], a resize request is only ever issued
    after the lookup of [destinationTabTitle] returned, for the id that the
    lookup returned; the lookup and the resize are each made once, never
    repeated. *)
Theorem resize_follows_lookup pageTitle titles indicators payload title s
        id columns rows r :
  let run := addColumnsAndRows C pageTitle titles indicators payload title s in
  In (Ext (CaddColumnsAndRowsToTabId id columns rows) r) (trace_of run) ->
  (exists s1,
     getTabIdFromTitle C title s = (Returned id, s1) /\
     r = thrown_of (fst (addColumnsAndRowsToTabId C id columns rows s1)) /\
     store_of run = snd (addColumnsAndRowsToTabId C id columns rows s1)) /\
  In (Ext (CgetTabIdFromTitle title) None) (trace_of run) /\
  count is_lookup_call (trace_of run) = 1%nat /\
  count is_resize_call (trace_of run) = 1%nat.
Proof.
  intros run Hin. subst run.
  destruct (addColumnsAndRows_cases C pageTitle titles indicators payload title s)
    as [cause Hrows|rows0 cause s1 Hrows Hid|rows0 id0 s1 cause s2 Hrows Hid Hrs
        |rows0 id0 s1 u s2 Hrows Hid Hrs];
    cbn [trace_of store_of fst snd In] in Hin |- *;
    repeat (destruct Hin as [Hin|Hin]; [try discriminate|]); try contradiction;
    inversion Hin; subst; (split; [exists s1; rewrite Hrs; now repeat split|]);
    repeat split; tauto.
Qed.

(** X7. When the row computation throws, [addColumnsAndRows] makes no call at
    all: the store is left as it was, the one thing that happens is the
    log line with the cause, and the fixed error is thrown. *)
Theorem planning_failure_makes_no_call pageTitle titles indicators payload title s cause :
  let run := addColumnsAndRows C pageTitle titles indicators payload title s in
  numberOfRowsNeeded (max_arguments C) payload = Threw cause ->
  result_of run = Threw provisioning_error /\
  store_of run = s /\
  count is_ext (trace_of run) = 0%nat /\
  filter is_console (trace_of run)
    = [ConsoleError [LStr "Error in adding columns and rows:"; LErr cause]].
Proof.
  intros run Hthrow. subst run.
  destruct (addColumnsAndRows_cases C pageTitle titles indicators payload title s)
    as [cause0 Hrows|rows0 cause0 s1 Hrows Hid|rows0 id0 s1 cause0 s2 Hrows Hid Hrs
        |rows0 id0 s1 u s2 Hrows Hid Hrs];
    try congruence.
  assert (cause0 = cause) by congruence. subst cause0.
  now repeat split.
Qed.

(** X8. [sendSummaryGrid] never throws, and its [catch] sees only a
    throw of the call itself: in its own run it prints 'An error
    occurred:' with the error when the call throws and nothing otherwise,
    and it leaves the store as the call left it.  An error that the client
    reports later goes to the callback, which prints it under 'The API
    returned an error: ', touches nothing and does not throw either. *)
Theorem grid_step_catches_only_the_call :
  (forall payload s,
     let run := sendSummaryGrid auth spreadsheetId C payload s in
     let call := batchUpdate_cb C (grid_params auth spreadsheetId payload) s in
     result_of run = Returned tt /\
     filter is_console (trace_of run)
       = caught "An error occurred:" (thrown_of (fst call)) /\
     store_of run = snd call) /\
  (forall err (s : Store World),
     let run := sendSummaryGrid_callback (Auth := Auth) (TabId := TabId) err s in
     result_of run = Returned tt /\
     store_of run = s /\
     (err = None -> trace_of run = []) /\
     (forall e, err = Some e ->
        trace_of run = [ConsoleError [LConcat "The API returned an error: " e]])).
Proof.
  split.
  - intros payload s run call. subst run call.
    unfold sendSummaryGrid, traced, try_catch, bind, extern, console_error, emit, ret.
    fold (grid_params auth spreadsheetId payload).
    destruct (batchUpdate_cb C _ s) as [[[]|e] s1]; now repeat split.
  - intros [e|] s run; subst run; cbn; repeat split; try discriminate.
    now intros e' [= <-].
Qed.

(** X9. A throw of one of the five input calls of [handleSummary] reaches the
    caller as it is: the run ends with that call, nothing is logged, and
    neither provisioning nor any write is attempted. *)
Theorem input_failure_propagates (s : Store World) inp e :
  let run := handleSummary auth spreadsheetId HEADER_INDICATORS C s in
  In (Ext inp (Some e)) (trace_of run) ->
  is_input_call (Ext inp (Some e) : Ev) = true ->
  result_of run = Threw e /\
  (exists before,
     trace_of run = before ++ [Ext inp (Some e)] /\
     Forall (fun ev => is_settled_input ev = true) before) /\
  count is_console (trace_of run) = 0%nat /\
  count (is_enter FaddColumnsAndRows) (trace_of run) = 0%nat /\
  count is_write_call (trace_of run) = 0%nat.
Proof.
  intros run Hin Hinput. subst run.
  pose proof (gather_inputs_shape s) as Hshape.
  destruct (handleSummary_cases auth spreadsheetId HEADER_INDICATORS C s)
    as [e0 s1 t1 Hinp|titles title ref s1 t1 e0 s2 t2 Hinp Hprov
        |titles title ref s1 t1 s2 t2 Hinp Hprov];
    rewrite Hinp in Hshape; cbn [trace_of result_of fst snd] in *.
  - inversion Hshape as [before c0 e1 s1' Hbefore Hc0 Heq|]; subst.
    apply in_app_or in Hin. destruct Hin as [Hin|[Hin|[]]].
    + exfalso. rewrite Forall_forall in Hbefore. specialize (Hbefore _ Hin).
      discriminate Hbefore.
    + injection Hin as -> ->. split; [reflexivity|]. split; [now exists before|].
      rewrite !count_app.
      rewrite !(count_excluded _ is_settled_input before) by (assumption || classify).
      destruct inp; try discriminate Hinput; now repeat split.
  - exfalso. inversion Hshape; subst.
    destruct (provisioning_throw_trace C _ _ _ _ _ _ _ _ _ Hprov) as (_ & _ & Ht2).
    apply in_app_or in Hin. destruct Hin as [Hin|Hin].
    + cbn [In] in Hin.
      repeat (destruct Hin as [Hin|Hin]; [discriminate Hin|]). contradiction.
    + revert Ht2 Hin Hinput. apply not_in_excluded. classify.
  - exfalso. inversion Hshape; subst.
    destruct (provisioning_done_trace C _ _ _ _ _ _ _ _ _ Hprov) as (id & rows & ->).
    pose proof (write_phase_trace auth spreadsheetId C title ref s2) as Ht3.
    apply in_app_or in Hin. destruct Hin as [Hin|Hin].
    { cbn [In] in Hin.
      repeat (destruct Hin as [Hin|Hin]; [discriminate Hin|]). contradiction. }
    apply in_app_or in Hin. destruct Hin as [Hin|Hin].
    { cbn [In] in Hin.
      repeat (destruct Hin as [Hin|Hin]; [discriminate Hin|]). contradiction. }
    revert Ht3 Hin Hinput. apply not_in_excluded. classify.
Qed.

(** X10. The number of Sheets requests of a run of [handleSummary] is three or
    none: a run that returns made the header, the body and the styling
    request once each, and a run that throws made no request. *)
Theorem requests_all_or_nothing (s : Store World) :
  let run := handleSummary auth spreadsheetId HEADER_INDICATORS C s in
  match result_of run with
  | Returned _ =>
      count is_header_write (trace_of run) = 1%nat /\
      count is_body_write (trace_of run) = 1%nat /\
      count is_style_write (trace_of run) = 1%nat /\
      count is_write_call (trace_of run) = 3%nat
  | Threw _ => count is_write_call (trace_of run) = 0%nat
  end.
Proof.
  intros run. subst run.
  destruct (handleSummary_cases auth spreadsheetId HEADER_INDICATORS C s)
    as [e s1 t1 Hinp|titles title ref s1 t1 e s2 t2 Hinp Hprov
        |titles title ref s1 t1 s2 t2 Hinp Hprov];
    pose proof (inputs_only C s) as Ht1; rewrite Hinp in Ht1;
    cbn [trace_of result_of fst snd] in *.
  - now rewrite (count_excluded _ is_input_call t1) by (assumption || classify).
  - destruct (provisioning_throw_trace C _ _ _ _ _ _ _ _ _ Hprov) as (_ & _ & Ht2).
    rewrite count_app.
    rewrite (count_excluded _ is_input_call t1) by (assumption || classify).
    now rewrite (count_excluded _ is_provisioning_event t2) by (assumption || classify).
  - destruct (provisioning_done_trace C _ _ _ _ _ _ _ _ _ Hprov) as (id & rows & ->).
    destruct (write_phase_shape auth spreadsheetId C title ref s2)
      as (header & body & style & rh & rb & rs & -> & _).
    rewrite !count_app.
    rewrite !(count_excluded _ is_input_call t1) by (assumption || classify).
    destruct rh, rb, rs; repeat split.
Qed.

(** X11. Every line that a run of [handleSummary] prints stands for one
    failure, and every failure after the input calls prints one line: the
    number of [console.error] lines is the number of rejected Sheets
    requests plus one if [addColumnsAndRows] threw. *)
Theorem console_lines_account_for_failures (s : Store World) :
  let run := handleSummary auth spreadsheetId HEADER_INDICATORS C s in
  count is_console (trace_of run) =
    (count is_failed_write (trace_of run)
     + count is_provisioning_throw (trace_of run))%nat.
Proof.
  intros run. subst run.
  destruct (handleSummary_cases auth spreadsheetId HEADER_INDICATORS C s)
    as [e s1 t1 Hinp|titles title ref s1 t1 e s2 t2 Hinp Hprov
        |titles title ref s1 t1 s2 t2 Hinp Hprov];
    pose proof (inputs_only C s) as Ht1; rewrite Hinp in Ht1;
    cbn [trace_of result_of fst snd] in *.
  - now rewrite !(count_excluded _ is_input_call t1) by (assumption || classify).
  - pose proof (addColumnsAndRows_cases C title titles HEADER_INDICATORS
                  (bodyPayload (heap s1 ref)) title s1) as Hcases.
    rewrite Hprov in Hcases.
    rewrite !count_app.
    rewrite !(count_excluded _ is_input_call t1) by (assumption || classify).
    inversion Hcases; subst; reflexivity.
  - destruct (provisioning_done_trace C _ _ _ _ _ _ _ _ _ Hprov) as (id & rows & ->).
    destruct (write_phase_shape auth spreadsheetId C title ref s2)
      as (header & body & style & rh & rb & rs & -> & _).
    rewrite !count_app.
    rewrite !(count_excluded _ is_input_call t1) by (assumption || classify).
    destruct rh, rb, rs; reflexivity.
Qed.

(** X12. [handleSummary] throws for two reasons only: an input call threw, and
    then its error is the one thrown and provisioning was never entered;
    or [addColumnsAndRows] threw, and then the error is the fixed one.  In
    neither case was a Sheets request rejected: a failed write never
    becomes the error of the pipeline. *)
Theorem pipeline_throws_only_for_inputs_or_provisioning (s : Store World) e :
  let run := handleSummary auth spreadsheetId HEADER_INDICATORS C s in
  result_of run = Threw e ->
  ((exists inp,
      is_input_call (Ext inp (Some e) : Ev) = true /\
      In (Ext inp (Some e)) (trace_of run) /\
      count (is_enter FaddColumnsAndRows) (trace_of run) = 0%nat) \/
   (e = provisioning_error /\
    In (Exit FaddColumnsAndRows (Some provisioning_error)) (trace_of run))) /\
  count is_failed_write (trace_of run) = 0%nat.
Proof.
  intros run Hres. subst run.
  pose proof (gather_inputs_shape s) as Hshape.
  destruct (handleSummary_cases auth spreadsheetId HEADER_INDICATORS C s)
    as [e0 s1 t1 Hinp|titles title ref s1 t1 e0 s2 t2 Hinp Hprov
        |titles title ref s1 t1 s2 t2 Hinp Hprov];
    pose proof (inputs_only C s) as Ht1; rewrite Hinp in Ht1, Hshape;
    cbn [trace_of result_of fst snd] in *; try discriminate Hres.
  - injection Hres as ->. split.
    + left. inversion Hshape as [before inp e1 s1' Hbefore Hc0 Heq|]; subst.
      exists inp. split; [exact Hc0|]. split; [apply in_or_app; right; now left|].
      now rewrite (count_excluded _ is_input_call (before ++ _))
        by (assumption || classify).
    + now rewrite (count_excluded _ is_input_call t1) by (assumption || classify).
  - injection Hres as ->.
    destruct (provisioning_throw_trace C _ _ _ _ _ _ _ _ _ Hprov) as (-> & Hexit & Ht2).
    split.
    + right. split; [reflexivity|]. apply in_or_app. now right.
    + rewrite count_app.
      rewrite (count_excluded _ is_input_call t1) by (assumption || classify).
      now rewrite (count_excluded _ is_provisioning_event t2) by (assumption || classify).
Qed.

(** The title a run of [addColumnsAndRows] looks up is its
    [destinationTabTitle]. *)
Lemma provisioning_looks_up_destination pageTitle titles indicators payload title s
      looked r :
  In (Ext (CgetTabIdFromTitle looked) r)
     (trace_of (addColumnsAndRows C pageTitle titles indicators payload title s)) ->
  looked = title.
Proof.
  intros Hin.
  destruct (addColumnsAndRows_cases C pageTitle titles indicators payload title s);
    cbn [trace_of snd In] in Hin;
    repeat (destruct Hin as [Hin|Hin]; [try discriminate|]); try contradiction;
    now inversion Hin.
Qed.

(** X13. In a run of [handleSummary] the tab that is looked up for resizing is
    the tab that was created: any title handed to [getTabIdFromTitle] is
    the title that was handed to [createNewTab], and that creation had
    returned. *)
Theorem created_tab_is_the_one_resized (s : Store World) created looked r r' :
  let run := handleSummary auth spreadsheetId HEADER_INDICATORS C s in
  In (Ext (CcreateNewTab created) r) (trace_of run) ->
  In (Ext (CgetTabIdFromTitle looked) r') (trace_of run) ->
  looked = created /\ r = None.
Proof.
  intros run Hcreated Hlooked. subst run.
  pose proof (gather_inputs_shape s) as Hshape.
  destruct (handleSummary_cases auth spreadsheetId HEADER_INDICATORS C s)
    as [e0 s1 t1 Hinp|titles title ref s1 t1 e0 s2 t2 Hinp Hprov
        |titles title ref s1 t1 s2 t2 Hinp Hprov];
    pose proof (inputs_only C s) as Ht1; rewrite Hinp in Ht1, Hshape;
    cbn [trace_of result_of fst snd] in *.
  - exfalso. rewrite Forall_forall in Ht1. specialize (Ht1 _ Hlooked). discriminate Ht1.
  - inversion Hshape; subst.
    destruct (provisioning_throw_trace C _ _ _ _ _ _ _ _ _ Hprov) as (_ & _ & Ht2).
    assert (Hl : In (Ext (CgetTabIdFromTitle looked) r') t2).
    { apply in_app_or in Hlooked. destruct Hlooked as [Hin|Hin]; [|exact Hin].
      exfalso. rewrite Forall_forall in Ht1. specialize (Ht1 _ Hin). discriminate Ht1. }
    assert (Hc : In (Ext (CcreateNewTab created) r : Ev)
                    [Ext CgetExistingTabTitlesInRange None;
                     Ext (CgetLastMonthTabTitles existing) None;
                     Ext CcreateSummaryTitle None;
                     Ext (CcreateNewTab title) None;
                     Ext (CconstructPayloadForCopyPaste titles title) None]).
    { apply in_app_or in Hcreated. destruct Hcreated as [Hin|Hin]; [exact Hin|].
      exfalso. rewrite Forall_forall in Ht2. specialize (Ht2 _ Hin). discriminate Ht2. }
    pose proof Hprov as Hprov'.
    apply (f_equal trace_of) in Hprov'. cbn [trace_of snd] in Hprov'.
    rewrite <- Hprov' in Hl. apply provisioning_looks_up_destination in Hl. subst looked.
    cbn [In] in Hc.
    repeat (destruct Hc as [Hc|Hc]; [try discriminate Hc|]); try contradiction.
    injection Hc as <- <-. now split.
  - inversion Hshape; subst.
    pose proof (write_phase_trace auth spreadsheetId C title ref s2) as Ht3.
    assert (Ht2 : Forall (fun e : Ev => is_provisioning_event e = true) t2).
    { pose proof (addColumnsAndRows_cases C title titles HEADER_INDICATORS
                    (bodyPayload (heap s1 ref)) title s1) as Hcases.
      rewrite Hprov in Hcases. apply (provisioning_trace C _ _ _ _ _ Hcases). }
    assert (Hl : In (Ext (CgetTabIdFromTitle looked) r') t2).
    { apply in_app_or in Hlooked. destruct Hlooked as [Hin|Hin].
      { exfalso. rewrite Forall_forall in Ht1. specialize (Ht1 _ Hin). discriminate Ht1. }
      apply in_app_or in Hin. destruct Hin as [Hin|Hin]; [exact Hin|].
      exfalso. rewrite Forall_forall in Ht3. specialize (Ht3 _ Hin). discriminate Ht3. }
    assert (Hc : In (Ext (CcreateNewTab created) r : Ev)
                    [Ext CgetExistingTabTitlesInRange None;
                     Ext (CgetLastMonthTabTitles existing) None;
                     Ext CcreateSummaryTitle None;
                     Ext (CcreateNewTab title) None;
                     Ext (CconstructPayloadForCopyPaste titles title) None]).
    { apply in_app_or in Hcreated. destruct Hcreated as [Hin|Hin]; [exact Hin|].
      exfalso. apply in_app_or in Hin. destruct Hin as [Hin|Hin].
      - rewrite Forall_forall in Ht2. specialize (Ht2 _ Hin). discriminate Ht2.
      - rewrite Forall_forall in Ht3. specialize (Ht3 _ Hin). discriminate Ht3. }
    pose proof Hprov as Hprov'.
    apply (f_equal trace_of) in Hprov'. cbn [trace_of snd] in Hprov'.
    rewrite <- Hprov' in Hl. apply provisioning_looks_up_destination in Hl. subst looked.
    cbn [In] in Hc.
    repeat (destruct Hc as [Hc|Hc]; [try discriminate Hc|]); try contradiction.
    injection Hc as <- <-. now split.
Qed.

(** X14. The resize request of a run of [handleSummary] is planned from what
    the input calls returned: its columns from the prior-period titles and
    [HEADER_INDICATORS], its rows from the body of the payload object as it
    was when the builder returned, and its tab id from the lookup of the
    new title. *)
Theorem resize_is_planned_from_inputs (s : Store World)
        titles title l s1 t1 id columns rows r :
  let run := handleSummary auth spreadsheetId HEADER_INDICATORS C s in
  gather_inputs C s = (Returned (titles, title, l), s1, t1) ->
  In (Ext (CaddColumnsAndRowsToTabId id columns rows) r) (trace_of run) ->
  columns = Z.of_nat (length titles * length HEADER_INDICATORS) /\
  numberOfRowsNeeded (max_arguments C) (bodyPayload (heap s1 l)) = Returned rows /\
  exists s2, getTabIdFromTitle C title s1 = (Returned id, s2).
Proof.
  intros run Hinp Hin. subst run.
  pose proof (inputs_only C s) as Ht1. rewrite Hinp in Ht1. cbn [trace_of snd] in Ht1.
  rewrite handleSummary_phases, Hinp in Hin.
  pose proof (addColumnsAndRows_cases C title titles HEADER_INDICATORS
                (bodyPayload (heap s1 l)) title s1) as Hcases.
  assert (Hin2 : In (Ext (CaddColumnsAndRowsToTabId id columns rows) r)
                    (trace_of (addColumnsAndRows C title titles HEADER_INDICATORS
                                 (bodyPayload (heap s1 l)) title s1))).
  { destruct (addColumnsAndRows C title titles HEADER_INDICATORS
                (bodyPayload (heap s1 l)) title s1) as [[[u|e] s2] t2];
      cbn [trace_of snd] in Hin |- *.
    - pose proof (write_phase_trace auth spreadsheetId C title l s2) as Ht3.
      destruct (write_phase auth spreadsheetId C title l s2) as [[r3 s3] t3].
      cbn [trace_of snd] in Hin, Ht3.
      apply in_app_or in Hin. destruct Hin as [Hin|Hin].
      { exfalso. rewrite Forall_forall in Ht1. specialize (Ht1 _ Hin). discriminate Ht1. }
      apply in_app_or in Hin. destruct Hin as [Hin|Hin]; [exact Hin|].
      exfalso. rewrite Forall_forall in Ht3. specialize (Ht3 _ Hin). discriminate Ht3.
    - apply in_app_or in Hin. destruct Hin as [Hin|Hin]; [|exact Hin].
      exfalso. rewrite Forall_forall in Ht1. specialize (Ht1 _ Hin). discriminate Ht1. }
  unfold numberOfColumnsNeeded in Hcases. rewrite <- Nat2Z.inj_mul in Hcases.
  inversion Hcases as [cause Hrows Heq|rows0 cause s2 Hrows Hid Heq
                       |rows0 id0 s2 cause s3 Hrows Hid Hrs Heq
                       |rows0 id0 s2 u s3 Hrows Hid Hrs Heq];
    rewrite <- Heq in Hin2; cbn [trace_of snd In] in Hin2;
    repeat (destruct Hin2 as [Hin2|Hin2]; [try discriminate Hin2|]);
    try contradiction;
    injection Hin2 as <- <- <- <-; repeat split; try assumption; now exists s2.
Qed.

(** X15. Every Sheets request of a run of [handleSummary] goes to the
    spreadsheet the module is configured with, under its credentials: the
    values request with ['RAW'] input, each [batchUpdate] without a
    callback and with a [requests] array of exactly one element, however
    many entries the body payload has. *)
Theorem requests_go_to_the_configured_spreadsheet (s : Store World) :
  Forall (well_addressed auth spreadsheetId)
    (trace_of (handleSummary auth spreadsheetId HEADER_INDICATORS C s)).
Proof.
  assert (Hother : forall (q : Ev -> bool) (t : list Ev),
             (forall e, q e = true -> is_write_call e = false) ->
             Forall (fun e => q e = true) t ->
             Forall (well_addressed auth spreadsheetId) t).
  { intros q t Hex Hall. apply (Forall_impl _ (P := fun e => q e = true)); [|exact Hall].
    intros e He. specialize (Hex e He).
    destruct e as [f|f r|c r|a]; cbn; auto.
    destruct c; cbn in Hex |- *; auto; discriminate Hex. }
  destruct (handleSummary_cases auth spreadsheetId HEADER_INDICATORS C s)
    as [e s1 t1 Hinp|titles title ref s1 t1 e s2 t2 Hinp Hprov
        |titles title ref s1 t1 s2 t2 Hinp Hprov];
    pose proof (inputs_only C s) as Ht1; rewrite Hinp in Ht1;
    cbn [trace_of result_of fst snd] in *.
  - apply (Hother is_input_call); [classify|assumption].
  - destruct (provisioning_throw_trace C _ _ _ _ _ _ _ _ _ Hprov) as (_ & _ & Ht2).
    apply Forall_app. split.
    + apply (Hother is_input_call); [classify|assumption].
    + apply (Hother is_provisioning_event); [classify|assumption].
  - destruct (provisioning_done_trace C _ _ _ _ _ _ _ _ _ Hprov) as (id & rows & ->).
    destruct (write_phase_shape auth spreadsheetId C title ref s2)
      as (header & body & style & rh & rb & rs & -> & _).
    apply Forall_app. split; [apply (Hother is_input_call); [classify|assumption]|].
    destruct rh, rb, rs; cbn; repeat constructor.
Qed.

End Further.

(* ===================================================================== *)
(** ** The further properties at work on the small world *)
(* ===================================================================== *)

Module Checks.

Import Scenario.

Local Abbreviation Ev := (event unit Z).

Lemma first_offender_check :
  forallb has_destination [to_row 5] = true /\
  item_endRowIndex merge_header = Threw (TypeError "destination") /\
  numberOfRowsNeeded 130000 ([to_row 5] ++ merge_header :: [open_row])
    = Threw (TypeError "destination").
Proof.
  split; [reflexivity|]. split; [reflexivity|].
  apply (rows_error_is_first_offender 130000 [to_row 5] [open_row] merge_header
           (TypeError "destination")); reflexivity.
Defined.


Lemma concatenation_check :
  numberOfRowsNeeded 130000 [to_row 5; to_row 12] = Returned (Num 12) /\
  numberOfRowsNeeded 130000 [to_row 8] = Returned (Num 8) /\
  numberOfRowsNeeded 130000 ([to_row 5; to_row 12] ++ [to_row 8])
    = (if (N.of_nat (length ([to_row 5; to_row 12] ++ [to_row 8])) <=? 130000)%N
       then Returned (max_step (Num 12) (Num 8))
       else Threw RangeError) /\
  numberOfRowsNeeded 130000 ([to_row 5; to_row 12] ++ [to_row 8]) = Returned (Num 12).
Proof.
  split; [reflexivity|]. split; [reflexivity|].
  split; [|reflexivity].
  apply (rows_of_concatenation 130000 [to_row 5; to_row 12] [to_row 8]); reflexivity.
Defined.

(** With an engine that takes two arguments, the same two parts still
    have row counts, and the whole has none. *)
Example concatenation_past_the_limit :
  numberOfRowsNeeded 2 [to_row 5; to_row 12] = Returned (Num 12) /\
  numberOfRowsNeeded 2 [to_row 8] = Returned (Num 8) /\
  numberOfRowsNeeded 2 ([to_row 5; to_row 12] ++ [to_row 8]) = Threw RangeError.
Proof. repeat split. Qed.

Lemma reordering_check :
  numberOfRowsNeeded 130000 [to_row 5; open_row; to_row 8] = Returned NaN /\
  Permutation [to_row 5; open_row; to_row 8] [to_row 8; to_row 5; open_row] /\
  numberOfRowsNeeded 130000 [to_row 8; to_row 5; open_row] = Returned NaN.
Proof.
  assert (Hperm : Permutation [to_row 5; open_row; to_row 8]
                              [to_row 8; to_row 5; open_row])
    by (apply Permutation_sym;
        apply (Permutation_cons_append [to_row 5; open_row] (to_row 8))).
  split; [reflexivity|]. split; [exact Hperm|].
  apply (rows_ignore_entry_order 130000 [to_row 5; open_row; to_row 8]
           [to_row 8; to_row 5; open_row] NaN); [reflexivity|exact Hperm].
Defined.

Lemma resize_after_lookup_check :
  let run :=
    addColumnsAndRows (collaborators payload_B no_fault)
      "Summary" ["Jan-1"; "Jan-2"] indicators (bodyPayload payload_B) "Summary" s0 in
  In (Ext (CaddColumnsAndRowsToTabId 7%Z 4%Z (Num 12)) None : Ev) (trace_of run) /\
  (exists s1,
     getTabIdFromTitle (collaborators payload_B no_fault) "Summary" s0
       = (Returned 7%Z, s1) /\
     None = thrown_of (fst (addColumnsAndRowsToTabId (collaborators payload_B no_fault)
                              7%Z 4%Z (Num 12) s1)) /\
     store_of run = snd (addColumnsAndRowsToTabId (collaborators payload_B no_fault)
                           7%Z 4%Z (Num 12) s1)) /\
  In (Ext (CgetTabIdFromTitle "Summary") None : Ev) (trace_of run) /\
  count is_lookup_call (trace_of run) = 1%nat /\
  count is_resize_call (trace_of run) = 1%nat.
Proof.
  cbv zeta. split; [cbn; tauto|].
  apply (resize_follows_lookup (collaborators payload_B no_fault)
           "Summary" ["Jan-1"; "Jan-2"] indicators (bodyPayload payload_B) "Summary" s0
           7%Z 4%Z (Num 12) None).
  cbn. tauto.
Defined.

Lemma planning_failure_check :
  let run :=
    addColumnsAndRows (collaborators payload_B no_fault)
      "Summary" ["Jan-1"; "Jan-2"] indicators [to_row 5; merge_header] "Summary" s0 in
  numberOfRowsNeeded 130000 [to_row 5; merge_header] = Threw (TypeError "destination") /\
  result_of run = Threw provisioning_error /\
  store_of run = s0 /\
  count is_ext (trace_of run) = 0%nat /\
  filter is_console (trace_of run)
    = [ConsoleError [LStr "Error in adding columns and rows:";
                     LErr (TypeError "destination")]].
Proof.
  cbv zeta. split; [reflexivity|].
  apply (planning_failure_makes_no_call (collaborators payload_B no_fault)
           "Summary" ["Jan-1"; "Jan-2"] indicators [to_row 5; merge_header] "Summary" s0
           (TypeError "destination")).
  reflexivity.
Defined.

Lemma tab_creation_failure_check :
  In (Ext (CcreateNewTab "Summary") (Some (Foreign "tab already exists")) : Ev)
     (trace_of run_no_tab) /\
  is_input_call
    (Ext (CcreateNewTab "Summary") (Some (Foreign "tab already exists")) : Ev) = true /\
  result_of run_no_tab = Threw (Foreign "tab already exists") /\
  (exists before,
     trace_of run_no_tab
       = before ++ [Ext (CcreateNewTab "Summary") (Some (Foreign "tab already exists"))] /\
     Forall (fun ev : Ev => is_settled_input ev = true) before) /\
  count is_console (trace_of run_no_tab) = 0%nat /\
  count (is_enter FaddColumnsAndRows) (trace_of run_no_tab) = 0%nat /\
  count is_write_call (trace_of run_no_tab) = 0%nat.
Proof.
  split; [cbn; tauto|]. split; [reflexivity|].
  apply (input_failure_propagates tt "sheet-1" indicators
           (collaborators_no_tab payload_B) s0
           (CcreateNewTab "Summary") (Foreign "tab already exists")).
  - cbn. tauto.
  - reflexivity.
Defined.

Lemma thrown_value_check :
  result_of run_no_tab = Threw (Foreign "tab already exists") /\
  ((exists inp,
      is_input_call (Ext inp (Some (Foreign "tab already exists")) : Ev) = true /\
      In (Ext inp (Some (Foreign "tab already exists"))) (trace_of run_no_tab) /\
      count (is_enter FaddColumnsAndRows) (trace_of run_no_tab) = 0%nat) \/
   (Foreign "tab already exists" = provisioning_error /\
    In (Exit FaddColumnsAndRows (Some provisioning_error) : Ev) (trace_of run_no_tab))) /\
  count is_failed_write (trace_of run_no_tab) = 0%nat.
Proof.
  split; [reflexivity|].
  apply (pipeline_throws_only_for_inputs_or_provisioning tt "sheet-1" indicators
           (collaborators_no_tab payload_B) s0 (Foreign "tab already exists")).
  reflexivity.
Defined.

Lemma created_tab_check :
  In (Ext (CcreateNewTab "Summary") None : Ev) (trace_of (run payload_B no_fault)) /\
  In (Ext (CgetTabIdFromTitle "Summary") None : Ev) (trace_of (run payload_B no_fault)) /\
  "Summary" = "Summary" /\ @None thrown = None.
Proof.
  assert (H1 : In (Ext (CcreateNewTab "Summary") None : Ev)
                  (trace_of (run payload_B no_fault))) by (cbn; tauto).
  assert (H2 : In (Ext (CgetTabIdFromTitle "Summary") None : Ev)
                  (trace_of (run payload_B no_fault))) by (cbn; tauto).
  split; [exact H1|]. split; [exact H2|].
  exact (created_tab_is_the_one_resized tt "sheet-1" indicators
           (collaborators payload_B no_fault) s0 "Summary" "Summary" None None H1 H2).
Defined.

Lemma planned_resize_check :
  let inputs := gather_inputs (collaborators payload_B no_fault) s0 in
  inputs = (Returned (["Jan-1"; "Jan-2"], "Summary", fresh),
            store_of inputs, trace_of inputs) /\
  In (Ext (CaddColumnsAndRowsToTabId 7%Z 4%Z (Num 12)) None : Ev)
     (trace_of (run payload_B no_fault)) /\
  4%Z = Z.of_nat (length ["Jan-1"; "Jan-2"] * length indicators) /\
  numberOfRowsNeeded 130000 (bodyPayload (heap (store_of inputs) fresh)) = Returned (Num 12) /\
  exists s2,
    getTabIdFromTitle (collaborators payload_B no_fault) "Summary" (store_of inputs)
      = (Returned 7%Z, s2).
Proof.
  cbv zeta. split; [reflexivity|]. split; [cbn; tauto|].
  apply (resize_is_planned_from_inputs tt "sheet-1" indicators
           (collaborators payload_B no_fault) s0
           ["Jan-1"; "Jan-2"] "Summary" fresh
           (store_of (gather_inputs (collaborators payload_B no_fault) s0))
           (trace_of (gather_inputs (collaborators payload_B no_fault) s0))
           7%Z 4%Z (Num 12) None).
  - reflexivity.
  - cbn. tauto.
Defined.

End Checks.
